(** * The HUDSON sensor main loop (src/main/mainloop.py)

    A shallow embedding of [mainloop.py]: the module globals shared with the
    interrupt handler, the handler [nm3_callback], [send_usmart_alive_message],
    [set_environment_variables] and [run_mainloop].

    The program talks to hardware and to collaborators that live in other
    repositories (modem driver, power module, line driver, network module,
    jotter).  Their answers form the environment [Env], indexed by the step of
    the main thread at which they are asked.  The main thread runs in a small
    monad [M] that threads the module globals, writes the trace of what the
    main thread does, and distinguishes a normal return, a raised exception,
    a device reset, and a loop cut off by its step budget. *)

From Stdlib Require Import ZArith List String Ascii Bool Lia Arith.
From Stdlib Require Import DecimalString DecimalPos DecimalN.
Import ListNotations.
Local Open Scope string_scope.
Local Open Scope list_scope.
Local Open Scope Z_scope.

(** ** Data *)

(** What a call can raise: an instance of [Exception], the class named by
    both handlers of the file ([except Exception as the_exception]), or one
    of the exceptions that derive from [BaseException] only. *)
Inductive exn : Type :=
| Exception (msg : string)
| KeyboardInterrupt
| SystemExit.

(** [isinstance(e, Exception)]. *)
Definition is_Exception (e : exn) : bool :=
  match e with
  | Exception _ => true
  | KeyboardInterrupt | SystemExit => false
  end.

(** Values of [machine.reset_cause()]: the five constants the source compares
    with, and any other value. *)
Inductive ResetCause : Type :=
| PWRON_RESET | HARD_RESET | WDT_RESET | DEEPSLEEP_RESET | SOFT_RESET
| OTHER_RESET.

Definition ResetCause_eqb (a b : ResetCause) : bool :=
  match a, b with
  | PWRON_RESET, PWRON_RESET | HARD_RESET, HARD_RESET | WDT_RESET, WDT_RESET
  | DEEPSLEEP_RESET, DEEPSLEEP_RESET | SOFT_RESET, SOFT_RESET
  | OTHER_RESET, OTHER_RESET => true
  | _, _ => false
  end.

(** What one invocation of the interrupt handler reads from the platform:
    [pyb.micros()], [pyb.millis()], [utime.time()]. *)
Record Clock : Type := mkClock {
  pyb_micros : Z;
  pyb_millis : Z;
  utime_time : Z
}.

(** [utime.localtime(secs)]: a calendar tuple determined by [secs]. *)
Inductive struct_time : Type :=
| localtime (secs : Z).

(** [MessagePacket] of the modem driver, with the fields this file touches.
    [packet_payload] is [None] or a byte sequence. *)
Record MessagePacket : Type := mkPacket {
  packet_payload : option string;
  timestamp : struct_time;
  timestamp_millis : Z;
  timestamp_micros : Z
}.

(** The value under ["installedModules"]: [None] or a dict from module name
    to version ([None] or text), listed in the order [items()] yields. *)
Definition modules_dict : Type := list (string * option string).

(** [_env_variables]: [None] or a dict, listed in iteration order. *)
Definition env_dict : Type := list (string * option modules_dict).

(** What the main thread does, in program order: calls into the platform and
    the collaborators, and its accesses to the globals it shares with the
    interrupt handler (with the value read or written). *)
Inductive event : Type :=
| WdtInit (timeout : Z)                    (* machine.WDT(timeout=...) *)
| WdtFeed                                  (* wdt.feed() *)
| Jot (msg : string)                       (* jotter.get_jotter().jot(msg, ...) *)
| JotException (e : exn)                   (* jotter.get_jotter().jot_exception(e) *)
| Print (msg : string)                     (* print(msg) *)
| PrintException (e : exn)                 (* sys.print_exception(e) *)
| LedOn (n : Z)                            (* pyb.LED(n).on() *)
| LedOff (n : Z)                           (* pyb.LED(n).off() *)
| PowerModuleNew                           (* PowerModule() *)
| DisableNm3                               (* powermodule.disable_nm3() *)
| EnableNm3                                (* powermodule.enable_nm3() *)
| En3V3 (on : bool)                        (* pyb.Pin.board.EN_3V3.on() / .off() *)
| PinOut (name : string) (value : Z)       (* pyb.Pin(name, pyb.Pin.OUT, value=...) *)
| PinIn (name : string)                    (* pyb.Pin(name, pyb.Pin.IN) *)
| Max3221eNew                              (* MAX3221E(pyb.Pin.board.Y5) *)
| TxForceOn                                (* max3221e.tx_force_on() *)
| TxForceOff                               (* max3221e.tx_force_off() *)
| ExtInt (callback : bool)                 (* pyb.ExtInt(Y3, IRQ_RISING, PULL_DOWN, None / nm3_callback) *)
| UartOpen                                 (* machine.UART(1, 9600, ...) *)
| Nm3New                                   (* Nm3(input_stream=uart, output_stream=uart) *)
| SleepMs (ms : Z)                         (* utime.sleep_ms(ms) *)
| LightSleep                               (* machine.lightsleep() *)
| GetAddress                               (* modem.get_address() *)
| GetBatteryVoltage                        (* modem.get_battery_voltage() *)
| SendBroadcast (payload : string)         (* modem.send_broadcast_message(payload) *)
| PollReceiver                             (* nm3_modem.poll_receiver() *)
| ProcessIncomingBuffer                    (* nm3_modem.process_incoming_buffer() *)
| HasReceivedPacket                        (* nm3_modem.has_received_packet() *)
| GetReceivedPacket                        (* nm3_modem.get_received_packet() *)
| NetworkNew                               (* HudsonSensorNodeNetwork() *)
| InitInterfaces                           (* nm3_network.init_interfaces(nm3_modem, wdt) *)
| HandlePacket (p : MessagePacket)         (* nm3_network.handle_packet(p) *)
| GcCollect                                (* gc.collect() *)
| OpenFile (name mode : string)            (* open(name, mode) *)
| CloseFile                                (* otaflagfile.close(), and the close on leaving [with] *)
| MachineReset                             (* machine.reset() *)
| Time (t : Z)                             (* utime.time(), with its value *)
| ReadFlag (b : bool)                      (* a read of _nm3_callback_flag *)
| WriteFlag (b : bool)                     (* _nm3_callback_flag = b *)
| ReadSeconds (s : Z)                      (* a read of _nm3_callback_seconds *)
| ReadMillis (ms : Z)                      (* a read of _nm3_callback_millis *)
| ReadMicros (us : Z).                     (* a read of _nm3_callback_micros *)

(** ** The environment *)

(** Everything the program does not decide.  The main thread counts its steps
    (one per call and per access to a shared global); each answer is indexed
    by the step at which it is asked. *)
Record Env : Type := mkEnv {
  (** rising edges on Y3 that preempt the main thread just before its step
      [n], each with the clock readings its handler obtains *)
  irq : nat -> list Clock;
  (** [machine.reset_cause()] *)
  reset_cause : ResetCause;
  (** [utime.time()] as read by the main thread at step [n] *)
  wall_clock : nat -> Z;
  (** whether the collaborator call made at step [n] raises *)
  raises : nat -> option exn;
  (** whether the file operation made at step [n] fails, with the text of
      its [OSError] *)
  os_error : nat -> option string;
  (** answers of the modem driver *)
  modem_address : nat -> Z;
  (** the battery voltage, as ['{:0.2f}'.format] renders it *)
  modem_voltage : nat -> string;
  modem_has_packet : nat -> bool;
  modem_packet : nat -> MessagePacket
}.

(** ** Machine state *)

(** The module globals of [mainloop.py], the registration of the handler
    ([nm3_extint]), the step counter of the main thread, and the history of
    handler invocations (a ghost field: nothing in the program reads it). *)
Record Machine : Type := mkMachine {
  _env_variables : option env_dict;
  _nm3_callback_flag : bool;
  _nm3_callback_seconds : Z;
  _nm3_callback_millis : Z;
  _nm3_callback_micros : Z;
  nm3_extint : bool;
  step : nat;
  edges : list Clock
}.

(** The module as imported: lines 54-59. *)
Definition module_init : Machine :=
  {| _env_variables := None;
     _nm3_callback_flag := false;
     _nm3_callback_seconds := 0;
     _nm3_callback_millis := 0;
     _nm3_callback_micros := 0;
     nm3_extint := false;
     step := 0;
     edges := [] |}.

(** [set_environment_variables(env_variables_dict)], lines 93-96. *)
Definition set_environment_variables (env_variables_dict : option env_dict)
    (w : Machine) : Machine :=
  {| _env_variables := env_variables_dict;
     _nm3_callback_flag := _nm3_callback_flag w;
     _nm3_callback_seconds := _nm3_callback_seconds w;
     _nm3_callback_millis := _nm3_callback_millis w;
     _nm3_callback_micros := _nm3_callback_micros w;
     nm3_extint := nm3_extint w;
     step := step w;
     edges := edges w |}.

(** [nm3_callback(line)], lines 62-72: four writes, in this order.  The
    handler runs to completion before the main thread resumes. *)
Definition nm3_callback (line : Clock) (w : Machine) : Machine :=
  {| _env_variables := _env_variables w;
     _nm3_callback_flag := true;
     _nm3_callback_seconds := utime_time line;
     _nm3_callback_millis := pyb_millis line;
     _nm3_callback_micros := pyb_micros line;
     nm3_extint := nm3_extint w;
     step := step w;
     edges := edges w ++ [line] |}.

Definition set_flag (b : bool) (w : Machine) : Machine :=
  {| _env_variables := _env_variables w;
     _nm3_callback_flag := b;
     _nm3_callback_seconds := _nm3_callback_seconds w;
     _nm3_callback_millis := _nm3_callback_millis w;
     _nm3_callback_micros := _nm3_callback_micros w;
     nm3_extint := nm3_extint w;
     step := step w;
     edges := edges w |}.

Definition set_extint (b : bool) (w : Machine) : Machine :=
  {| _env_variables := _env_variables w;
     _nm3_callback_flag := _nm3_callback_flag w;
     _nm3_callback_seconds := _nm3_callback_seconds w;
     _nm3_callback_millis := _nm3_callback_millis w;
     _nm3_callback_micros := _nm3_callback_micros w;
     nm3_extint := b;
     step := step w;
     edges := edges w |}.

Definition next_step (w : Machine) : Machine :=
  {| _env_variables := _env_variables w;
     _nm3_callback_flag := _nm3_callback_flag w;
     _nm3_callback_seconds := _nm3_callback_seconds w;
     _nm3_callback_millis := _nm3_callback_millis w;
     _nm3_callback_micros := _nm3_callback_micros w;
     nm3_extint := nm3_extint w;
     step := S (step w);
     edges := edges w |}.

(** ** The monad of the main thread *)

Inductive outcome (A : Type) : Type :=
| Ret (a : A)          (* the statement completed *)
| Raise (e : exn)      (* an exception is propagating *)
| DeviceReset          (* machine.reset() was called: nothing runs after it *)
| OutOfFuel.           (* a [while] used up its budget of iterations *)
Arguments Ret {A} a.
Arguments Raise {A} e.
Arguments DeviceReset {A}.
Arguments OutOfFuel {A}.

Record result (A : Type) : Type := mkResult {
  res : outcome A;
  final : Machine;
  trace : list event
}.
Arguments mkResult {A} res final trace.
Arguments res {A} r.
Arguments final {A} r.
Arguments trace {A} r.

Definition M (A : Type) : Type := Machine -> result A.

Definition ret {A : Type} (a : A) : M A :=
  fun w => mkResult (Ret a) w [].

(** [after t r]: the run [r], preceded by the events [t]. *)
Definition after {A : Type} (t : list event) (r : result A) : result A :=
  mkResult (res r) (final r) (t ++ trace r).

Definition bind {A B : Type} (m : M A) (f : A -> M B) : M B :=
  fun w =>
    let r := m w in
    match res r with
    | Ret a => after (trace r) (f a (final r))
    | Raise e => mkResult (Raise e) (final r) (trace r)
    | DeviceReset => mkResult DeviceReset (final r) (trace r)
    | OutOfFuel => mkResult OutOfFuel (final r) (trace r)
    end.

Declare Scope prog_scope.
Delimit Scope prog_scope with prog.
Notation "x <- m ;; k" := (bind m (fun x => k))
  (at level 61, m at next level, right associativity) : prog_scope.
Notation "m ;; k" := (bind m (fun _ => k))
  (at level 61, right associativity) : prog_scope.
Local Open Scope prog_scope.

Definition raise {A : Type} (e : exn) : M A :=
  fun w => mkResult (Raise e) w [].

Definition emit (e : event) : M unit :=
  fun w => mkResult (Ret tt) w [e].

(** [try: body / except Exception as e: handler e]: an exception that is not
    an instance of [Exception] passes through. *)
Definition try_except {A : Type} (body : M A) (handler : exn -> M A) : M A :=
  fun w =>
    let r := body w in
    match res r with
    | Raise e => if is_Exception e then after (trace r) (handler e (final r)) else r
    | _ => r
    end.

(** Leaving a [with] block: [exit] runs whether the body returned or raised;
    an exception of [exit] replaces the one of the body. *)
Definition try_finally {A : Type} (body : M A) (exit : M unit) : M A :=
  fun w =>
    let r := body w in
    match res r with
    | Ret a => after (trace r) ((exit ;; ret a) (final r))
    | Raise e => after (trace r) ((exit ;; raise e) (final r))
    | _ => r
    end.

(** [while cond: body], with a budget of iterations. *)
Fixpoint while_ (fuel : nat) (cond : M bool) (body : M unit) : M unit :=
  match fuel with
  | O => fun w => mkResult OutOfFuel w []
  | S fuel' =>
      c <- cond ;;
      if c then body ;; while_ fuel' cond body else ret tt
  end.

(** [for x in xs: body x]. *)
Fixpoint for_each {A : Type} (xs : list A) (body : A -> M unit) : M unit :=
  match xs with
  | [] => ret tt
  | x :: xs' => body x ;; for_each xs' body
  end.

(** ** Formatting *)

Definition decimal (n : Z) : string :=
  NilZero.string_of_uint (N.to_uint (Z.to_N n)).

Definition zero_pad (width : nat) (s : string) : string :=
  (string_of_list_ascii (repeat "0"%char (Nat.sub width (String.length s))) ++ s)%string.

(** ["{:03d}".format(n)]: the sign counts towards the width. *)
Definition format_03d (n : Z) : string :=
  if n <? 0 then ("-" ++ zero_pad 2 (decimal (- n)))%string else zero_pad 3 (decimal n).

(** ** Truth values and dict access, as Python has them *)

(** [x and ...] on a value that is [None] or a sequence: false for [None] and
    for the empty sequence. *)
Definition truthy_str (x : option string) : bool :=
  match x with
  | Some s => negb (String.eqb s "")
  | None => false
  end.

Definition truthy_dict {V : Type} (x : option (list (string * V))) : bool :=
  match x with
  | Some (_ :: _) => true
  | _ => false
  end.

(** [key in d]. *)
Definition dict_mem {V : Type} (key : string) (d : list (string * V)) : bool :=
  existsb (fun kv => String.eqb (fst kv) key) d.

(** [d[key]], for a key that is in [d]. *)
Definition dict_get {V : Type} (key : string) (d : list (string * V)) : option V :=
  option_map snd (find (fun kv => String.eqb (fst kv) key) d).

(** [message_packet.packet_payload and bytes(message_packet.packet_payload) == lit]. *)
Definition payload_is (message_packet : MessagePacket) (lit : string) : bool :=
  truthy_str (packet_payload message_packet) &&
  match packet_payload message_packet with
  | Some b => String.eqb b lit
  | None => false
  end.

(** [message_packet.packet_payload and len(message_packet.packet_payload) > 2
     and bytes(message_packet.packet_payload[:1]) == b'#'], lines 307-308. *)
Definition is_network_packet (message_packet : MessagePacket) : bool :=
  truthy_str (packet_payload message_packet) &&
  match packet_payload message_packet with
  | Some b => (2 <? Z.of_nat (String.length b)) && String.eqb (substring 0 1 b) "#"
  | None => false
  end.

(** The modem object handed to [send_usmart_alive_message]. *)
Inductive Nm3 : Type :=
| nm3_modem.

Section Program.

Variable env : Env.

(** ** Steps of the main thread *)

(** The handler runs for every edge that arrived since the previous step, if
    it is registered. *)
Definition service (w : Machine) : Machine :=
  if nm3_extint w
  then fold_left (fun w' line => nm3_callback line w') (irq env (step w)) w
  else w.

(** A step of the main thread: pending edges are served first.  Returns the
    number of the step. *)
Definition tick : M nat :=
  fun w => mkResult (Ret (step w)) (next_step (service w)) [].

(** A call into the platform ([pyb], [machine], [utime], [gc], [print]) or
    the jotter: it returns. *)
Definition call (e : event) : M unit :=
  _ <- tick ;; emit e.

(** A call into a collaborator (power module, line driver, modem driver,
    network module): it returns or raises. *)
Definition collab (e : event) : M unit :=
  n <- tick ;;
  emit e ;;
  match raises env n with
  | Some x => raise x
  | None => ret tt
  end.

(** A collaborator call with a result. *)
Definition query {A : Type} (e : event) (answer : nat -> A) : M A :=
  n <- tick ;;
  emit e ;;
  match raises env n with
  | Some x => raise x
  | None => ret (answer n)
  end.

(** A built-in operation on a file ([open], [close]): it returns or raises
    an [OSError], which is an instance of [Exception]. *)
Definition file_op (e : event) : M unit :=
  n <- tick ;;
  emit e ;;
  match os_error env n with
  | Some msg => raise (Exception msg)
  | None => ret tt
  end.

(** A read of a global shared with the handler. *)
Definition read_global {A : Type} (get : Machine -> A) (ev : A -> event) : M A :=
  _ <- tick ;;
  fun w => mkResult (Ret (get w)) w [ev (get w)].

Definition read_flag : M bool := read_global _nm3_callback_flag ReadFlag.
Definition read_seconds : M Z := read_global _nm3_callback_seconds ReadSeconds.
Definition read_millis : M Z := read_global _nm3_callback_millis ReadMillis.
Definition read_micros : M Z := read_global _nm3_callback_micros ReadMicros.

(** [_nm3_callback_flag = b]. *)
Definition write_flag (b : bool) : M unit :=
  _ <- tick ;;
  fun w => mkResult (Ret tt) (set_flag b w) [WriteFlag b].

(** A read of [_env_variables], which the handler never touches. *)
Definition read_env_variables : M (option env_dict) :=
  fun w => mkResult (Ret (_env_variables w)) w [].

(** [utime.time()]. *)
Definition utime_time_now : M Z :=
  n <- tick ;;
  emit (Time (wall_clock env n)) ;;
  ret (wall_clock env n).

(** [pyb.ExtInt(pyb.Pin.board.Y3, pyb.ExtInt.IRQ_RISING, pyb.Pin.PULL_DOWN, callback)]. *)
Definition ext_int (callback : bool) : M unit :=
  _ <- tick ;;
  fun w => mkResult (Ret tt) (set_extint callback w) [ExtInt callback].

(** [machine.reset()]: does not return. *)
Definition machine_reset {A : Type} : M A :=
  _ <- tick ;;
  fun w => mkResult DeviceReset w [MachineReset].

Definition wdt_feed : M unit := call WdtFeed.
Definition sleep_ms (ms : Z) : M unit := call (SleepMs ms).
Definition jot (msg : string) : M unit := call (Jot msg).
Definition jot_exception (e : exn) : M unit := call (JotException e).
Definition print (msg : string) : M unit := call (Print msg).
Definition print_exception (e : exn) : M unit := call (PrintException e).

Definition get_address : M Z := query GetAddress (modem_address env).
Definition get_battery_voltage : M string := query GetBatteryVoltage (modem_voltage env).
Definition send_broadcast_message (payload : string) : M unit :=
  collab (SendBroadcast payload).
Definition has_received_packet : M bool := query HasReceivedPacket (modem_has_packet env).
Definition get_received_packet : M MessagePacket :=
  query GetReceivedPacket (modem_packet env).

(** ** [send_usmart_alive_message(modem)], lines 75-89 *)

Definition send_usmart_alive_message (modem : option Nm3) : M unit :=
  match modem with
  | Some _ =>
      nm3_address <- get_address ;;
      sleep_ms 20 ;;
      nm3_voltage <- get_battery_voltage ;;
      sleep_ms 20 ;;
      let alive_string :=
        ("UA" ++ format_03d nm3_address ++ ("B" ++ nm3_voltage ++ "V")
              ++ "REV:2021-07-09T17:38:00")%string in
      send_broadcast_message alive_string
  | None => ret tt
  end.

(** ** [run_mainloop()], lines 101-365 *)

(** Lines 116-128. *)
Definition last_reset_cause : string :=
  if ResetCause_eqb (reset_cause env) PWRON_RESET then "PWRON_RESET"
  else if ResetCause_eqb (reset_cause env) HARD_RESET then "HARD_RESET"
  else if ResetCause_eqb (reset_cause env) WDT_RESET then "WDT_RESET"
  else if ResetCause_eqb (reset_cause env) DEEPSLEEP_RESET then "DEEPSLEEP_RESET"
  else if ResetCause_eqb (reset_cause env) SOFT_RESET then "SOFT_RESET"
  else "UNDEFINED_RESET".

(** Lines 111-161: watchdog, reset cause, modem off, rails and line driver on,
    interrupt registered, serial port opened. *)
Definition startup_rails : M unit :=
  call (WdtInit 30000) ;;
  jot ("Reset cause: " ++ last_reset_cause)%string ;;
  print ("last_reset_cause=" ++ last_reset_cause)%string ;;
  wdt_feed ;;
  call (LedOn 2) ;;
  jot "Powering off NM3" ;;
  collab PowerModuleNew ;;
  collab DisableNm3 ;;
  call (En3V3 true) ;;
  call (PinOut "Y5" 0) ;;
  collab Max3221eNew ;;
  collab TxForceOn ;;
  ext_int false ;;
  ext_int true ;;
  call UartOpen ;;
  collab Nm3New ;;
  sleep_ms 20.

(** Lines 163-173: the modem is powered on between two settle delays. *)
Definition power_on_nm3 : M unit :=
  wdt_feed ;;
  jot "Powering on NM3" ;;
  sleep_ms 10000 ;;
  collab EnableNm3 ;;
  sleep_ms 10000 ;;
  wdt_feed.

(** Lines 175-210: address and voltage, the alive broadcast, the network
    module. *)
Definition announce : M unit :=
  jot "NM3 running" ;;
  nm3_address <- get_address ;;
  sleep_ms 20 ;;
  nm3_voltage <- get_battery_voltage ;;
  sleep_ms 20 ;;
  print ("NM3 Address " ++ format_03d nm3_address
           ++ " Voltage " ++ nm3_voltage ++ "V.")%string ;;
  jot ("NM3 Address " ++ format_03d nm3_address
         ++ " Voltage " ++ nm3_voltage ++ "V.")%string ;;
  send_usmart_alive_message (Some nm3_modem) ;;
  wdt_feed ;;
  sleep_ms 500 ;;
  collab NetworkNew ;;
  collab InitInterfaces ;;
  sleep_ms 100 ;;
  wdt_feed ;;
  uptime_start <- utime_time_now ;;
  ret tt.

(** Lines 248-250: the timestamps of the latest edge are copied into the
    packet, one global after the other. *)
Definition copy_timestamps (message_packet : MessagePacket) : M MessagePacket :=
  s <- read_seconds ;;
  ms <- read_millis ;;
  us <- read_micros ;;
  ret {| packet_payload := packet_payload message_packet;
         timestamp := localtime s;
         timestamp_millis := ms;
         timestamp_micros := us |}.

(** Lines 263-272: the flag file is created; a failure is logged. *)
Definition write_ota_flag : M unit :=
  try_except
    (file_op (OpenFile ".USOTA" "w") ;;
     try_finally (file_op CloseFile) (file_op CloseFile))
    (fun the_exception =>
       jot_exception the_exception ;;
       print_exception the_exception).

(** Lines 294-295. *)
Definition mod_string (nm3_address : Z) (mod_ : string) (version : option string) : string :=
  ("UM" ++ format_03d nm3_address ++ ":" ++ mod_ ++ ":"
        ++ (if truthy_str version
            then match version with Some v => v | None => "None" end
            else "None"))%string.

(** Lines 290-302. *)
Definition send_installed_modules (nm3_address : Z) : M unit :=
  ev <- read_env_variables ;;
  if truthy_dict ev &&
     match ev with Some d => dict_mem "installedModules" d | None => false end
  then
    let installed_modules :=
      match ev with
      | Some d => match dict_get "installedModules" d with Some v => v | None => None end
      | None => None
      end in
    if truthy_dict installed_modules
    then
      for_each (match installed_modules with Some l => l | None => [] end)
        (fun item =>
           send_broadcast_message (mod_string nm3_address (fst item) (snd item)) ;;
           sleep_ms 1000 ;;
           wdt_feed)
    else ret tt
  else ret tt.

(** Lines 253-318: the five tests on the payload, one after the other. *)
Definition dispatch (message_packet : MessagePacket) : M unit :=
  (if payload_is message_packet "USMRT"
   then jot "Reset message received." ;; machine_reset
   else ret tt) ;;
  (if payload_is message_packet "USOTA"
   then jot "OTA message received." ;; write_ota_flag ;; machine_reset
   else ret tt) ;;
  (if payload_is message_packet "USPNG"
   then jot "PNG message received." ;; send_usmart_alive_message (Some nm3_modem)
   else ret tt) ;;
  (if payload_is message_packet "USMOD"
   then jot "MOD message received." ;;
        nm3_address <- get_address ;;
        send_installed_modules nm3_address
   else ret tt) ;;
  (if is_network_packet message_packet
   then call GcCollect ;;
        collab (HandlePacket message_packet) ;;
        call GcCollect
   else ret tt).


(** Lines 231-318: the branch taken inside the active window. *)
Definition poll_and_dispatch (fuel : nat) : M unit :=
  flag <- read_flag ;;
  (if flag then print "Has received nm3 synch flag." else ret tt) ;;
  write_flag false ;;
  collab PollReceiver ;;
  collab ProcessIncomingBuffer ;;
  while_ fuel has_received_packet
    (print "Has received nm3 message." ;;
     jot "Has received nm3 message." ;;
     message_packet <- get_received_packet ;;
     message_packet <- copy_timestamps message_packet ;;
     dispatch message_packet).

(** Line 230: [_nm3_callback_flag or (utime.time() < _nm3_callback_seconds + 30)]. *)
Definition in_active_window : M bool :=
  flag <- read_flag ;;
  if flag then ret true
  else
    now <- utime_time_now ;;
    seconds <- read_seconds ;;
    ret (now <? seconds + 30).

(** Lines 229-318: the first [if] of the loop body. *)
Definition poll_stage (fuel : nat) : M unit :=
  active <- in_active_window ;;
  if active then poll_and_dispatch fuel else ret tt.

(** Line 323: [(not _nm3_callback_flag) and (utime.time() > _nm3_callback_seconds + 30)]. *)
Definition too_long_since_synch : M bool :=
  flag <- read_flag ;;
  if negb flag
  then
    now <- utime_time_now ;;
    seconds <- read_seconds ;;
    ret (seconds + 30 <? now)
  else ret false.

(** Lines 327-338: pull-ups off, transmit driver off, rail off. *)
Definition power_down : M unit :=
  print "Going to sleep." ;;
  jot "Going to sleep." ;;
  call (PinIn "PULL_SCL") ;;
  call (PinIn "PULL_SDA") ;;
  collab TxForceOff ;;
  call (En3V3 false) ;;
  call (LedOff 2) ;;
  sleep_ms 10.

(** Lines 340-346. *)
Definition sleep_until_flag (fuel : nat) : M unit :=
  while_ fuel (flag <- read_flag ;; ret (negb flag))
    (wdt_feed ;; call LightSleep).

(** Lines 351-357: rail on, transmit driver on, pull-ups on. *)
Definition wake_up : M unit :=
  wdt_feed ;;
  call (En3V3 true) ;;
  collab TxForceOn ;;
  call (PinOut "PULL_SCL" 1) ;;
  call (PinOut "PULL_SDA" 1).

(** Lines 322-357: the second [if] of the loop body. *)
Definition sleep_stage (fuel : nat) : M unit :=
  too_long <- too_long_since_synch ;;
  if too_long
  then
    flag <- read_flag ;;
    (if negb flag then power_down else ret tt) ;;
    sleep_until_flag fuel ;;
    wake_up
  else ret tt.

(** Lines 222-359: the body of the [try]. *)
Definition operating_mode (fuel : nat) : M unit :=
  wdt_feed ;;
  call (En3V3 true) ;;
  poll_stage fuel ;;
  sleep_stage fuel.

(** Lines 221-365: one iteration of [while True]. *)
Definition loop_iteration (fuel : nat) : M unit :=
  try_except (operating_mode fuel)
    (fun the_exception =>
       print_exception the_exception ;;
       jot_exception the_exception).

(** Lines 220-365: [while True], observed for [iterations] iterations; the
    loops inside an iteration have the budget [fuel]. *)
Definition mainloop (iterations fuel : nat) : M unit :=
  while_ iterations (ret true) (loop_iteration fuel).

Definition run_mainloop (iterations fuel : nat) : M unit :=
  startup_rails ;;
  power_on_nm3 ;;
  announce ;;
  mainloop iterations fuel.

End Program.

(** * Vocabulary of the properties

    Predicates on events and traces, the invariants, the concrete inputs
    used further down, and the dispatch table read as a chain. *)

(** The machine after one step of the main thread. *)
Definition nxt (env : Env) (w : Machine) : Machine :=
  next_step (service env w).

(** [inv I m]: if [I] holds of the events so far and of the machine, it holds
    again when [m] stops, however it stops. *)
Definition inv {A : Type} (I : list event -> Machine -> Prop) (m : M A) : Prop :=
  forall h w, I h w -> I (h ++ trace (m w)) (final (m w)).

(** [keeps env I e]: the invariant [I] survives a step of the main thread
    that does [e] and leaves the globals to the handler. *)
Definition keeps (env : Env) (I : list event -> Machine -> Prop) (e : event) : Prop :=
  forall h w, I h w -> I (h ++ [e]) (nxt env w).

(** The categories of the dispatcher, in the order of its tests. *)
Inductive category : Type :=
| CatReset | CatOta | CatPing | CatListModules | CatNetwork.

Definition matches (c : category) (p : MessagePacket) : bool :=
  match c with
  | CatReset => payload_is p "USMRT"
  | CatOta => payload_is p "USOTA"
  | CatPing => payload_is p "USPNG"
  | CatListModules => payload_is p "USMOD"
  | CatNetwork => is_network_packet p
  end.

(** The dispatch table read as "first match wins": the tests in the same
    order, each tried only when the ones before it failed. *)
Definition dispatch_first_match (env : Env) (message_packet : MessagePacket) : M unit :=
  if matches CatReset message_packet
  then jot env "Reset message received." ;; machine_reset env
  else if matches CatOta message_packet
  then jot env "OTA message received." ;; write_ota_flag env ;; machine_reset env
  else if matches CatPing message_packet
  then jot env "PNG message received." ;;
       send_usmart_alive_message env (Some nm3_modem)
  else if matches CatListModules message_packet
  then jot env "MOD message received." ;;
       nm3_address <- get_address env ;;
       send_installed_modules env nm3_address
  else if matches CatNetwork message_packet
  then call env GcCollect ;;
       collab env (HandlePacket message_packet) ;;
       call env GcCollect
  else ret tt.

(** The list the [for] of lines 293-302 runs over: empty unless the three
    guards of lines 290-292 pass. *)
Definition installed_modules_of (ev : option env_dict) : modules_dict :=
  match ev with
  | Some d =>
      if truthy_dict ev && dict_mem "installedModules" d
      then match dict_get "installedModules" d with
           | Some (Some l) => l
           | _ => []
           end
      else []
  | None => []
  end.

(** What one pass of the [for] body puts on the trace. *)
Definition module_sends (a : Z) (mods : modules_dict) : list event :=
  flat_map (fun item =>
              [SendBroadcast (mod_string a (fst item) (snd item));
               SleepMs 1000; WdtFeed]) mods.

(** An environment in which nothing happens: no edge, no failure, no packet;
    the modem has address 7. *)
Definition env_quiet : Env :=
  {| irq := fun _ => [];
     reset_cause := WDT_RESET;
     wall_clock := fun _ => 1000;
     raises := fun _ => None;
     os_error := fun _ => None;
     modem_address := fun _ => 7;
     modem_voltage := fun _ => "3.30";
     modem_has_packet := fun _ => false;
     modem_packet := fun _ => mkPacket None (localtime 0) 0 0 |}.

(** As [env_quiet], after a reset of cause [c]. *)
Definition env_after_reset (c : ResetCause) : Env :=
  {| irq := fun _ => [];
     reset_cause := c;
     wall_clock := fun _ => 1000;
     raises := fun _ => None;
     os_error := fun _ => None;
     modem_address := fun _ => 7;
     modem_voltage := fun _ => "3.30";
     modem_has_packet := fun _ => false;
     modem_packet := fun _ => mkPacket None (localtime 0) 0 0 |}.

(** As [env_quiet], but the file operation made at step [k] fails. *)
Definition env_file_error (k : nat) (msg : string) : Env :=
  {| irq := fun _ => [];
     reset_cause := WDT_RESET;
     wall_clock := fun _ => 1000;
     raises := fun _ => None;
     os_error := fun n => if Nat.eqb n k then Some msg else None;
     modem_address := fun _ => 7;
     modem_voltage := fun _ => "3.30";
     modem_has_packet := fun _ => false;
     modem_packet := fun _ => mkPacket None (localtime 0) 0 0 |}.

(** As [env_quiet], but the collaborator call made at step [k] raises. *)
Definition env_failing (k : nat) (e : exn) : Env :=
  {| irq := fun _ => [];
     reset_cause := WDT_RESET;
     wall_clock := fun _ => 1000;
     raises := fun n => if Nat.eqb n k then Some e else None;
     os_error := fun _ => None;
     modem_address := fun _ => 7;
     modem_voltage := fun _ => "3.30";
     modem_has_packet := fun _ => false;
     modem_packet := fun _ => mkPacket None (localtime 0) 0 0 |}.

Definition packet_of (payload : string) : MessagePacket :=
  mkPacket (Some payload) (localtime 0) 0 0.

(** Every event so far satisfies [P]. *)
Definition all_events (P : event -> Prop) : list event -> Machine -> Prop :=
  fun h _ => Forall P h.

Definition is_poll (e : event) : bool :=
  match e with PollReceiver => true | _ => false end.


(** [k] rounds of the loop of lines 340-346. *)
Fixpoint naps (k : nat) : list event :=
  match k with
  | O => []
  | S k' => ReadFlag false :: WdtFeed :: LightSleep :: naps k'
  end.

(** An environment in which one edge arrives just before step [k] of the
    main thread. *)
Definition env_edge (k : nat) (line : Clock) : Env :=
  {| irq := fun n => if Nat.eqb n k then [line] else [];
     reset_cause := WDT_RESET;
     wall_clock := fun _ => 1000;
     raises := fun _ => None;
     os_error := fun _ => None;
     modem_address := fun _ => 7;
     modem_voltage := fun _ => "3.30";
     modem_has_packet := fun _ => false;
     modem_packet := fun _ => mkPacket None (localtime 0) 0 0 |}.

(** Calls that act on a power rail or on a pin: the power module, the logic
    rail, the line driver and its enable pin, the pull-up pins, the LED, the
    interrupt line, the serial port. *)
Definition touches_rail_or_pin (e : event) : bool :=
  match e with
  | PowerModuleNew | DisableNm3 | EnableNm3 | En3V3 _ | PinOut _ _ | PinIn _
  | Max3221eNew | TxForceOn | TxForceOff | LedOn _ | LedOff _ | ExtInt _
  | UartOpen => true
  | _ => false
  end.

Definition is_enable_nm3 (e : event) : bool :=
  match e with EnableNm3 => true | _ => false end.

(** A delay of at least one second. *)
Definition long_delay (e : event) : bool :=
  match e with
  | SleepMs ms => 1000 <=? ms
  | _ => false
  end.

(** Where a long delay [SleepMs n] may stand, [pre] being what the main
    thread did before it and [post] what it did after: the pause of the
    list-modules loop, between a broadcast and a feed; the first settle delay
    of the power-on, after a feed and a log record, followed by the power-on
    call, the second settle delay and a feed (or by the power-on call alone
    when [cut] holds); the second settle delay, followed by a feed. *)
Definition delay_in_place (cut : Prop) (pre : list event) (n : Z)
    (post : list event) : Prop :=
  (n = 1000 /\
   (exists p a m v, pre = p ++ [SendBroadcast (mod_string a m v)]) /\
   (exists q, post = WdtFeed :: q)) \/
  (n = 10000 /\
   (exists p, pre = p ++ [WdtFeed; Jot "Powering on NM3"]) /\
   ((exists q, post = EnableNm3 :: SleepMs 10000 :: WdtFeed :: q) \/
    (cut /\ post = [EnableNm3]))) \/
  (n = 10000 /\
   (exists p, pre = p ++ [WdtFeed; Jot "Powering on NM3"; SleepMs 10000; EnableNm3]) /\
   (exists q, post = WdtFeed :: q)).

(** Every long delay of the trace stands where [delay_in_place] says. *)
Definition delays_placed (cut : Prop) (h : list event) : Prop :=
  forall pre n post,
    h = pre ++ SleepMs n :: post -> 1000 <= n -> delay_in_place cut pre n post.

(** The invariant: so far, every long delay stands in its place and was
    followed by what belongs after it. *)
Definition delays_in_place : list event -> Machine -> Prop :=
  fun h _ => delays_placed False h.

(** Feeds and delays: the steps that matter to the watchdog. *)
Definition timed (e : event) : bool :=
  match e with
  | WdtFeed | SleepMs _ | LightSleep => true
  | _ => false
  end.

(** The main loop finds the flag set when it consumes it: line 232. *)
Definition is_synch_seen (e : event) : bool :=
  match e with
  | Print msg => String.eqb msg "Has received nm3 synch flag."
  | _ => false
  end.

Definition count_synch (h : list event) : nat :=
  List.length (filter is_synch_seen h).

Definition b2n (b : bool) : nat := if b then 1%nat else 0%nat.

(** The three timestamps as they stand in the globals. *)
Definition latch (w : Machine) : Clock :=
  {| pyb_micros := _nm3_callback_micros w;
     pyb_millis := _nm3_callback_millis w;
     utime_time := _nm3_callback_seconds w |}.

(** The readings of the latest edge; zeros before the first one. *)
Definition latest (l : list Clock) : Clock := last l (mkClock 0 0 0).

(** The globals hold the readings of the latest edge. *)
Definition latch_ok (w : Machine) : Prop := latch w = latest (edges w).

(** Observations of the flag never outnumber the edges: each pending flag
    is backed by an edge not yet used up by an observation. *)
Definition seen_le_edges : list event -> Machine -> Prop :=
  fun h w =>
    (count_synch h + b2n (_nm3_callback_flag w) <= List.length (edges w))%nat.

(** The globals hold the readings of the latest edge, at every point. *)
Definition latch_holds : list event -> Machine -> Prop :=
  fun _ w => latch_ok w.

(** One edge before the first iteration, a second one between the read of
    the seconds and the read of the millis (step 55); the modem delivers one
    network packet. *)
Definition env_two_edges : Env :=
  {| irq := fun n =>
              if Nat.eqb n 40 then [mkClock 1000000 1000 100]
              else if Nat.eqb n 55 then [mkClock 2000000 2000 200]
              else [];
     reset_cause := PWRON_RESET;
     wall_clock := fun n => if Nat.leb n 54 then 100 else 200;
     raises := fun _ => None;
     os_error := fun _ => None;
     modem_address := fun _ => 7;
     modem_voltage := fun _ => "3.30";
     modem_has_packet := fun n => Nat.eqb n 50;
     modem_packet := fun _ => mkPacket (Some "#AB") (localtime 0) 0 0 |}.

(** ** Predicates of the further properties *)

Definition is_broadcast (e : event) : bool :=
  match e with SendBroadcast _ => true | _ => false end.

(** How many events of a trace pass a test. *)
Definition count (P : event -> bool) (t : list event) : nat :=
  List.length (filter P t).

(** Line 88. *)
Definition alive_string (nm3_address : Z) (nm3_voltage : string) : string :=
  ("UA" ++ format_03d nm3_address ++ ("B" ++ nm3_voltage ++ "V")
        ++ "REV:2021-07-09T17:38:00")%string.

(** Reading a decimal text back, as [int(text)] does for digits. *)
Definition read_int (s : string) : option Z :=
  option_map Z.of_uint (NilZero.uint_of_string s).

(** Every lightsleep comes right after a feed. *)
Definition sleeps_after_feed (h : list event) : Prop :=
  forall pre post, h = pre ++ LightSleep :: post -> exists p, pre = p ++ [WdtFeed].

Definition sleeps_fed : list event -> Machine -> Prop :=
  fun h _ => sleeps_after_feed h.

(** Every write of the flag is followed at once by a poll of the receiver. *)
Definition clears_then_polls (h : list event) : Prop :=
  forall pre b post, h = pre ++ WriteFlag b :: post ->
                     exists q, post = PollReceiver :: q.

Definition clears_polled : list event -> Machine -> Prop :=
  fun h _ => clears_then_polls h.

(** One edge before the first iteration; the modem then delivers packets
    with the given payload for as long as it is asked. *)
Definition env_command (payload : string) : Env :=
  {| irq := fun n => if Nat.eqb n 40 then [mkClock 1000000 1000 100] else [];
     reset_cause := PWRON_RESET;
     wall_clock := fun _ => 100;
     raises := fun _ => None;
     os_error := fun _ => None;
     modem_address := fun _ => 7;
     modem_voltage := fun _ => "3.30";
     modem_has_packet := fun _ => true;
     modem_packet := fun _ => mkPacket (Some payload) (localtime 0) 0 0 |}.




(** Traffic with the modem over the serial line. *)
Definition modem_io (e : event) : bool :=
  match e with
  | GetAddress | GetBatteryVoltage | SendBroadcast _ | PollReceiver
  | ProcessIncomingBuffer | HasReceivedPacket | GetReceivedPacket => true
  | _ => false
  end.

Definition is_rail (e : event) : bool :=
  match e with En3V3 _ => true | _ => false end.

(** The state of the logic rail after the events [t], from the state [on]. *)
Definition rail_after (on : bool) (t : list event) : bool :=
  fold_left (fun st e => match e with En3V3 b => b | _ => st end) t on.

(** * Reasoning about runs *)

(** ** Equations of the monad *)

Lemma after_res {A : Type} (t : list event) (r : result A) :
  res (after t r) = res r.
Proof. reflexivity. Qed.

Lemma after_final {A : Type} (t : list event) (r : result A) :
  final (after t r) = final r.
Proof. reflexivity. Qed.

Lemma after_trace {A : Type} (t : list event) (r : result A) :
  trace (after t r) = t ++ trace r.
Proof. reflexivity. Qed.

Lemma trace_after_cons {A : Type} (e : event) (t : list event) (r : result A) :
  trace (after (e :: t) r) = e :: trace (after t r).
Proof. reflexivity. Qed.

Lemma trace_after_nil {A : Type} (r : result A) : trace (after [] r) = trace r.
Proof. reflexivity. Qed.

Lemma after_nil {A : Type} (r : result A) : after [] r = r.
Proof. destruct r; reflexivity. Qed.

Lemma after_after {A : Type} (t u : list event) (r : result A) :
  after t (after u r) = after (t ++ u) r.
Proof. unfold after; simpl. now rewrite app_assoc. Qed.

(** The run of [m ;; f], by cases on how [m] ends. *)
Lemma bind_cases {A B : Type} (m : M A) (f : A -> M B) (w : Machine) :
  (exists a, res (m w) = Ret a /\
             bind m f w = after (trace (m w)) (f a (final (m w)))) \/
  ((forall a, res (m w) <> Ret a) /\
   trace (bind m f w) = trace (m w) /\
   final (bind m f w) = final (m w) /\
   (forall b, res (bind m f w) <> Ret b) /\
   (forall e, res (bind m f w) = Raise e <-> res (m w) = Raise e)).
Proof.
  unfold bind. destruct (res (m w)) eqn:E.
  - left. eauto.
  - right. simpl. repeat split; try congruence.
  - right. simpl. repeat split; try congruence.
  - right. simpl. repeat split; try congruence.
Qed.

Lemma bind_assoc {A B C : Type} (m : M A) (f : A -> M B) (g : B -> M C) (w : Machine) :
  bind (bind m f) g w = bind m (fun a => bind (f a) g) w.
Proof.
  unfold bind. destruct (res (m w)) eqn:E; simpl; try reflexivity.
  destruct (res (f a (final (m w)))) eqn:F; simpl; try reflexivity.
  now rewrite after_after.
Qed.

Lemma bind_raise {A B : Type} (m : M A) (f : A -> M B) (w : Machine) (e : exn) :
  res (m w) = Raise e ->
  bind m f w = mkResult (Raise e) (final (m w)) (trace (m w)).
Proof. unfold bind. intros ->. reflexivity. Qed.

Lemma bind_raise_trace {A B : Type} (m : M A) (f : A -> M B) (w : Machine) (e : exn) :
  res (m w) = Raise e -> trace (bind m f w) = trace (m w).
Proof. unfold bind. intros ->. reflexivity. Qed.

Lemma bind_raise_res {A B : Type} (m : M A) (f : A -> M B) (w : Machine) (e : exn) :
  res (m w) = Raise e -> res (bind m f w) = Raise e.
Proof. unfold bind. intros ->. reflexivity. Qed.



Lemma bind_returns {A B : Type} (m : M A) (f : A -> M B) (w : Machine) (a : A) :
  res (m w) = Ret a ->
  bind m f w = after (trace (m w)) (f a (final (m w))).
Proof. unfold bind. intros ->. reflexivity. Qed.

(** The run of [try: body / except Exception], by cases on how [body]
    ends. *)
Lemma try_except_caught {A : Type} (body : M A) (handler : exn -> M A)
    (w : Machine) (e : exn) :
  res (body w) = Raise e -> is_Exception e = true ->
  try_except body handler w = after (trace (body w)) (handler e (final (body w))).
Proof. unfold try_except. intros -> ->. reflexivity. Qed.

Lemma try_except_passes {A : Type} (body : M A) (handler : exn -> M A)
    (w : Machine) (e : exn) :
  res (body w) = Raise e -> is_Exception e = false ->
  try_except body handler w = body w.
Proof. unfold try_except. intros -> ->. reflexivity. Qed.

Lemma try_except_quiet {A : Type} (body : M A) (handler : exn -> M A) (w : Machine) :
  (forall e, res (body w) <> Raise e) ->
  try_except body handler w = body w.
Proof.
  unfold try_except. intros H.
  destruct (res (body w)) as [a|e| |] eqn:E; try reflexivity.
  now elim (H e).
Qed.

Section Runs.

Variable env : Env.

Lemma service_step (w : Machine) : step (service env w) = step w.
Proof.
  unfold service. destruct (nm3_extint w); [|reflexivity].
  generalize (irq env (step w)). intros l. revert w.
  induction l as [|c l IH]; intros w; simpl; [reflexivity|].
  now rewrite IH.
Qed.

Lemma service_extint (w : Machine) : nm3_extint (service env w) = nm3_extint w.
Proof.
  unfold service. destruct (nm3_extint w) eqn:E; [|assumption].
  generalize (irq env (step w)). intros l. revert w E.
  induction l as [|c l IH]; intros w E; simpl; [assumption|].
  now rewrite IH.
Qed.

Lemma service_env_variables (w : Machine) :
  _env_variables (service env w) = _env_variables w.
Proof.
  unfold service. destruct (nm3_extint w); [|reflexivity].
  generalize (irq env (step w)). intros l. revert w.
  induction l as [|c l IH]; intros w; simpl; [reflexivity|].
  now rewrite IH.
Qed.

Lemma nxt_step (w : Machine) : step (nxt env w) = S (step w).
Proof. unfold nxt; simpl. now rewrite service_step. Qed.

Lemma nxt_extint (w : Machine) : nm3_extint (nxt env w) = nm3_extint w.
Proof. unfold nxt; simpl. apply service_extint. Qed.

Lemma nxt_env_variables (w : Machine) : _env_variables (nxt env w) = _env_variables w.
Proof. unfold nxt; simpl. apply service_env_variables. Qed.

(** No edge, or no handler: the step leaves the globals alone. *)
Lemma service_quiet (w : Machine) :
  nm3_extint w = false \/ irq env (step w) = [] -> service env w = w.
Proof.
  unfold service. intros [H|H]; rewrite H; [reflexivity|].
  now destruct (nm3_extint w).
Qed.

(** *** How each primitive runs *)

Lemma run_call {B : Type} (e : event) (f : unit -> M B) (w : Machine) :
  bind (call env e) f w = after [e] (f tt (nxt env w)).
Proof. reflexivity. Qed.

Lemma run_collab {B : Type} (e : event) (f : unit -> M B) (w : Machine) :
  bind (collab env e) f w =
  match raises env (step w) with
  | Some x => mkResult (Raise x) (nxt env w) [e]
  | None => after [e] (f tt (nxt env w))
  end.
Proof.
  unfold bind, collab, tick, emit, raise, ret, after, nxt; simpl.
  destruct (raises env (step w)); reflexivity.
Qed.


Lemma run_query {A B : Type} (e : event) (answer : nat -> A) (f : A -> M B)
    (w : Machine) :
  bind (query env e answer) f w =
  match raises env (step w) with
  | Some x => mkResult (Raise x) (nxt env w) [e]
  | None => after [e] (f (answer (step w)) (nxt env w))
  end.
Proof.
  unfold bind, query, tick, emit, raise, ret, after, nxt; simpl.
  destruct (raises env (step w)); reflexivity.
Qed.

Lemma run_read_global {A B : Type} (get : Machine -> A) (ev : A -> event)
    (f : A -> M B) (w : Machine) :
  bind (read_global env get ev) f w =
  after [ev (get (nxt env w))] (f (get (nxt env w)) (nxt env w)).
Proof. reflexivity. Qed.

Lemma run_write_flag {B : Type} (b : bool) (f : unit -> M B) (w : Machine) :
  bind (write_flag env b) f w = after [WriteFlag b] (f tt (set_flag b (nxt env w))).
Proof. reflexivity. Qed.

Lemma run_ext_int {B : Type} (b : bool) (f : unit -> M B) (w : Machine) :
  bind (ext_int env b) f w = after [ExtInt b] (f tt (set_extint b (nxt env w))).
Proof. reflexivity. Qed.

Lemma run_utime_time_now {B : Type} (f : Z -> M B) (w : Machine) :
  bind (utime_time_now env) f w =
  after [Time (wall_clock env (step w))] (f (wall_clock env (step w)) (nxt env w)).
Proof. reflexivity. Qed.

Lemma run_machine_reset {A B : Type} (f : A -> M B) (w : Machine) :
  bind (machine_reset env) f w = mkResult DeviceReset (nxt env w) [MachineReset].
Proof. reflexivity. Qed.

Lemma run_ret {A B : Type} (a : A) (f : A -> M B) (w : Machine) :
  bind (ret a) f w = f a w.
Proof. unfold bind, ret; simpl. apply after_nil. Qed.

Lemma run_read_env_variables {B : Type} (f : option env_dict -> M B) (w : Machine) :
  bind read_env_variables f w = f (_env_variables w) w.
Proof. unfold bind, read_env_variables; simpl. apply after_nil. Qed.

(** ** Invariants of the history *)

Section Rules.

Variable I : list event -> Machine -> Prop.

Lemma inv_ret {A : Type} (a : A) : inv I (ret a).
Proof. intros h w H. simpl. now rewrite app_nil_r. Qed.

Lemma inv_raise {A : Type} (e : exn) : inv I (@raise A e).
Proof. intros h w H. simpl. now rewrite app_nil_r. Qed.

Lemma inv_bind {A B : Type} (m : M A) (f : A -> M B) :
  inv I m -> (forall a, inv I (f a)) -> inv I (bind m f).
Proof.
  intros Hm Hf h w H. specialize (Hm h w H).
  unfold bind. destruct (res (m w)); simpl; try assumption.
  rewrite app_assoc. now apply Hf.
Qed.

Lemma inv_try_except {A : Type} (body : M A) (handler : exn -> M A) :
  inv I body -> (forall e, inv I (handler e)) -> inv I (try_except body handler).
Proof.
  intros Hm Hf h w H. specialize (Hm h w H).
  unfold try_except. destruct (res (body w)) as [a|e| |]; simpl; try assumption.
  destruct (is_Exception e); simpl; [|assumption].
  rewrite app_assoc. now apply Hf.
Qed.

Lemma inv_try_finally {A : Type} (body : M A) (exit : M unit) :
  inv I body -> inv I exit -> inv I (try_finally body exit).
Proof.
  intros Hm Hf h w H. specialize (Hm h w H).
  unfold try_finally. destruct (res (body w)); simpl; try assumption.
  - rewrite app_assoc.
    apply (inv_bind exit (fun _ => ret a)); [assumption| |assumption].
    intros; apply inv_ret.
  - rewrite app_assoc.
    apply (inv_bind exit (fun _ => raise e)); [assumption| |assumption].
    intros; apply inv_raise.
Qed.

Lemma inv_while (fuel : nat) (cond : M bool) (body : M unit) :
  inv I cond -> inv I body -> inv I (while_ fuel cond body).
Proof.
  intros Hc Hb. induction fuel as [|n IH]; simpl.
  - intros h w H. simpl. now rewrite app_nil_r.
  - apply inv_bind; [assumption|]. intros [|].
    + apply inv_bind; [assumption|]. intros; assumption.
    + apply inv_ret.
Qed.

Lemma inv_for_each {A : Type} (xs : list A) (body : A -> M unit) :
  (forall x, inv I (body x)) -> inv I (for_each xs body).
Proof.
  intros Hb. induction xs as [|x xs IH]; simpl.
  - apply inv_ret.
  - apply inv_bind; [apply Hb|]. intros; assumption.
Qed.

Lemma inv_call (e : event) : keeps env I e -> inv I (call env e).
Proof. intros K h w H. now apply K. Qed.

Lemma inv_collab (e : event) : keeps env I e -> inv I (collab env e).
Proof.
  intros K h w H. unfold collab.
  change (I (h ++ trace (bind (tick env)
     (fun n => bind (emit e) (fun _ => match raises env n with
                                      | Some x => raise x | None => ret tt end)) w))
            (final (bind (tick env)
     (fun n => bind (emit e) (fun _ => match raises env n with
                                      | Some x => raise x | None => ret tt end)) w))).
  unfold bind, tick, emit; simpl.
  destruct (raises env (step w)); simpl; now apply K.
Qed.

Lemma inv_file_op (e : event) : keeps env I e -> inv I (file_op env e).
Proof.
  intros K h w H. unfold file_op, bind, tick, emit; simpl.
  destruct (os_error env (step w)); simpl; now apply K.
Qed.

Lemma inv_query {A : Type} (e : event) (answer : nat -> A) :
  keeps env I e -> inv I (query env e answer).
Proof.
  intros K h w H. unfold query, bind, tick, emit; simpl.
  destruct (raises env (step w)); simpl; now apply K.
Qed.

Lemma inv_read_global {A : Type} (get : Machine -> A) (ev : A -> event) :
  (forall a, keeps env I (ev a)) -> inv I (read_global env get ev).
Proof. intros K h w H. now apply K. Qed.

Lemma inv_utime_time_now : (forall t, keeps env I (Time t)) -> inv I (utime_time_now env).
Proof. intros K h w H. now apply K. Qed.

Lemma inv_machine_reset {A : Type} : keeps env I MachineReset -> inv I (@machine_reset env A).
Proof. intros K h w H. now apply K. Qed.

Lemma inv_write_flag (b : bool) :
  (forall h w, I h w -> I (h ++ [WriteFlag b]) (set_flag b (nxt env w))) ->
  inv I (write_flag env b).
Proof. intros K h w H. now apply K. Qed.

Lemma inv_ext_int (b : bool) :
  (forall h w, I h w -> I (h ++ [ExtInt b]) (set_extint b (nxt env w))) ->
  inv I (ext_int env b).
Proof. intros K h w H. now apply K. Qed.

Lemma inv_read_env_variables : inv I read_env_variables.
Proof. intros h w H. simpl. now rewrite app_nil_r. Qed.

End Rules.

End Runs.

(** ** The five tests of the dispatcher *)

Lemma payload_is_eq (p : MessagePacket) (lit : string) :
  payload_is p lit = true -> packet_payload p = Some lit.
Proof.
  unfold payload_is. destruct (packet_payload p) as [b|]; simpl.
  - intros H. apply andb_true_iff in H. destruct H as [_ H].
    apply String.eqb_eq in H. now subst.
  - discriminate.
Qed.

Lemma payload_is_lit (p : MessagePacket) (lit other : string) :
  packet_payload p = Some lit ->
  payload_is p other = negb (String.eqb lit "") && String.eqb lit other.
Proof. unfold payload_is. intros ->. reflexivity. Qed.

Lemma is_network_packet_lit (p : MessagePacket) (lit : string) :
  packet_payload p = Some lit ->
  is_network_packet p =
  negb (String.eqb lit "") &&
  ((2 <? Z.of_nat (String.length lit)) && String.eqb (substring 0 1 lit) "#").
Proof. unfold is_network_packet. intros ->. reflexivity. Qed.

Lemma matches_exclusive (p : MessagePacket) (c d : category) :
  matches c p = true -> matches d p = true -> c = d.
Proof.
  destruct c, d; simpl; intros Hc Hd; try reflexivity;
    first [ apply payload_is_eq in Hc | apply payload_is_eq in Hd ];
    first [ rewrite (payload_is_lit _ _ _ Hc) in Hd
          | rewrite (payload_is_lit _ _ _ Hd) in Hc
          | rewrite (is_network_packet_lit _ _ Hc) in Hd
          | rewrite (is_network_packet_lit _ _ Hd) in Hc ];
    discriminate.
Qed.

Lemma bind_ret_tt (m : M unit) (w : Machine) : bind m (fun _ => ret tt) w = m w.
Proof.
  unfold bind. destruct (m w) as [[[]| | |] f t]; simpl; try reflexivity.
  unfold after; simpl. now rewrite app_nil_r.
Qed.

Section Dispatcher.

Variable env : Env.

Lemma bind_then_reset {A B : Type} (m : M A) (f : unit -> M B) (w : Machine) :
  bind m (fun _ => bind (machine_reset env) f) w =
  bind m (fun _ => machine_reset env) w.
Proof.
  unfold bind at 1 3. destruct (res (m w)); reflexivity.
Qed.

Lemma dispatch_is_first_match (p : MessagePacket) (w : Machine) :
  dispatch env p w = dispatch_first_match env p w.
Proof.
  unfold dispatch, dispatch_first_match.
  destruct (matches CatReset p) eqn:E1; simpl in E1; rewrite E1.
  { unfold jot. rewrite bind_assoc, !run_call. now rewrite run_machine_reset. }
  rewrite run_ret.
  destruct (matches CatOta p) eqn:E2; simpl in E2; rewrite E2.
  { unfold jot. rewrite bind_assoc, !run_call. f_equal.
    rewrite bind_assoc. apply bind_then_reset. }
  rewrite run_ret.
  destruct (matches CatPing p) eqn:E3.
  { assert (H4 : matches CatListModules p = false).
    { destruct (matches CatListModules p) eqn:E; [|reflexivity].
      discriminate (matches_exclusive p _ _ E3 E). }
    assert (H5 : matches CatNetwork p = false).
    { destruct (matches CatNetwork p) eqn:E; [|reflexivity].
      discriminate (matches_exclusive p _ _ E3 E). }
    simpl in E3, H4, H5. rewrite E3, H4, H5.
    set (m := (jot env "PNG message received." ;;
               send_usmart_alive_message env (Some nm3_modem))).
    transitivity (bind m (fun _ => ret tt) w); [|apply bind_ret_tt].
    unfold bind. destruct (res (m w)); reflexivity. }
  simpl in E3; rewrite E3. rewrite run_ret.
  destruct (matches CatListModules p) eqn:E4.
  { assert (H5 : matches CatNetwork p = false).
    { destruct (matches CatNetwork p) eqn:E; [|reflexivity].
      discriminate (matches_exclusive p _ _ E4 E). }
    simpl in E4, H5. rewrite E4, H5.
    apply bind_ret_tt. }
  simpl in E4; rewrite E4. rewrite run_ret.
  destruct (matches CatNetwork p) eqn:E5; simpl in E5; rewrite E5; reflexivity.
Qed.

End Dispatcher.

Section DispatcherFacts.

Variable env : Env.

Lemma collab_alone (e : event) (w : Machine) :
  collab env e w =
  match raises env (step w) with
  | Some x => mkResult (Raise x) (nxt env w) [e]
  | None => mkResult (Ret tt) (nxt env w) [e]
  end.
Proof.
  unfold collab, bind, tick, emit, raise, ret, after, nxt; simpl.
  destruct (raises env (step w)); reflexivity.
Qed.


Lemma call_alone (e : event) (w : Machine) :
  call env e w = mkResult (Ret tt) (nxt env w) [e].
Proof. reflexivity. Qed.


Lemma send_installed_modules_loop (a : Z) (w : Machine) :
  send_installed_modules env a w =
  for_each (installed_modules_of (_env_variables w))
    (fun item =>
       send_broadcast_message env (mod_string a (fst item) (snd item)) ;;
       sleep_ms env 1000 ;;
       wdt_feed env) w.
Proof.
  unfold send_installed_modules, installed_modules_of.
  rewrite run_read_env_variables.
  destruct (_env_variables w) as [d|]; [|reflexivity].
  destruct (truthy_dict (Some d) && dict_mem "installedModules" d); [|reflexivity].
  destruct (dict_get "installedModules" d) as [[l|]|]; try reflexivity.
  destruct l; reflexivity.
Qed.

Lemma modules_loop_runs (a : Z) (mods : modules_dict) :
  (forall n, raises env n = None) ->
  forall w,
    res (for_each mods
           (fun item =>
              send_broadcast_message env (mod_string a (fst item) (snd item)) ;;
              sleep_ms env 1000 ;;
              wdt_feed env) w) = Ret tt /\
    trace (for_each mods
             (fun item =>
                send_broadcast_message env (mod_string a (fst item) (snd item)) ;;
                sleep_ms env 1000 ;;
                wdt_feed env) w) = module_sends a mods.
Proof.
  intros Hq. induction mods as [|item mods IH]; intros w; simpl.
  - split; reflexivity.
  - unfold send_broadcast_message, sleep_ms, wdt_feed.
    rewrite bind_assoc, run_collab, Hq.
    rewrite bind_assoc, !run_call.
    rewrite !after_res, !after_trace.
    destruct (IH (nxt env (nxt env (nxt env w)))) as [R T].
    unfold send_broadcast_message, sleep_ms, wdt_feed in R, T.
    rewrite R, T. split; reflexivity.
Qed.

End DispatcherFacts.

(** * The dispatcher *)

(** Evaluates the tests of the dispatcher once the payload is a literal. *)
Ltac decide_tests :=
  repeat match goal with
  | |- context [negb (String.eqb ?a ?b) && String.eqb ?c ?d] =>
      let v := eval vm_compute in (negb (String.eqb a b) && String.eqb c d) in
      change (negb (String.eqb a b) && String.eqb c d) with v
  end;
  cbv iota.

(** C6: a message whose payload is exactly "USMRT" is logged and resets the
    device, once, and nothing else is done for it; a payload passes at most
    one of the five tests, so that testing them one after the other is the
    same as taking the first that passes. *)
Theorem C6_reset_marker (env : Env) (p : MessagePacket) (w : Machine) :
  (packet_payload p = Some "USMRT" ->
   dispatch env p w =
   mkResult DeviceReset (nxt env (nxt env w))
     [Jot "Reset message received."; MachineReset]) /\
  (forall c d, matches c p = true -> matches d p = true -> c = d) /\
  dispatch env p w = dispatch_first_match env p w.
Proof.
  split; [|split].
  - intros H. rewrite dispatch_is_first_match. unfold dispatch_first_match.
    cbn [matches]. rewrite (payload_is_lit _ _ _ H). reflexivity.
  - apply matches_exclusive.
  - apply dispatch_is_first_match.
Qed.

Lemma C6_reset_marker_witness :
  dispatch env_quiet (packet_of "USMRT") module_init =
  mkResult DeviceReset (nxt env_quiet (nxt env_quiet module_init))
    [Jot "Reset message received."; MachineReset].
Proof.
  apply (proj1 (C6_reset_marker env_quiet (packet_of "USMRT") module_init)).
  reflexivity.
Defined.



(** A failing write, spelled out: the failure is logged, the device is
    reset. *)
Example ota_flag_write_fails :
  trace (dispatch (env_file_error 1 "ENOSPC") (packet_of "USOTA") module_init) =
  [Jot "OTA message received."; OpenFile ".USOTA" "w";
   JotException (Exception "ENOSPC"); PrintException (Exception "ENOSPC");
   MachineReset].
Proof. reflexivity. Qed.

(** C7, as stated, fails: without any environment configuration the
    "USMOD" command still logs and asks the modem for its address. *)
Lemma C7_list_modules_counterexample :
  _env_variables module_init = None /\
  trace (dispatch env_quiet (packet_of "USMOD") module_init) =
    [Jot "MOD message received."; GetAddress] /\
  trace (dispatch env_quiet (packet_of "USMOD") module_init) <> [].
Proof. repeat split. discriminate. Qed.

(** C7, amended: a message whose payload is exactly "USMOD" is logged and the
    modem is asked for its address, whatever the configuration; without
    installed-module data nothing more is done (no broadcast); with it, and
    when no call raises, one broadcast per module is sent in the order of the
    mapping, each followed by a pause of 1000 ms and a watchdog feed.  For
    {"alpha": "1.0", "beta": None} and address 7 these are "UM007:alpha:1.0"
    and then "UM007:beta:None". *)
Theorem C7_list_modules (env : Env) (p : MessagePacket) (w : Machine) :
  packet_payload p = Some "USMOD" ->
  exists rest,
    trace (dispatch env p w) = Jot "MOD message received." :: GetAddress :: rest /\
    (installed_modules_of (_env_variables w) = [] -> rest = []) /\
    ((forall n, raises env n = None) ->
     res (dispatch env p w) = Ret tt /\
     rest = module_sends (modem_address env (S (step w)))
              (installed_modules_of (_env_variables w))) /\
    ((forall n, raises env n = None) ->
     modem_address env (S (step w)) = 7 ->
     installed_modules_of (_env_variables w) = [("alpha", Some "1.0"); ("beta", None)] ->
     rest = [SendBroadcast "UM007:alpha:1.0"; SleepMs 1000; WdtFeed;
             SendBroadcast "UM007:beta:None"; SleepMs 1000; WdtFeed]).
Proof.
  intros H. rewrite dispatch_is_first_match. unfold dispatch_first_match.
  cbn [matches]. rewrite !(payload_is_lit _ _ _ H). decide_tests.
  unfold jot, get_address. rewrite run_call, run_query, nxt_step.
  destruct (raises env (S (step w))) as [e|] eqn:E.
  - exists []. simpl. split; [reflexivity|]. split; [reflexivity|].
    split; intros Hq; rewrite Hq in E; discriminate.
  - rewrite send_installed_modules_loop, !nxt_env_variables.
    set (a := modem_address env (S (step w))).
    set (mods := installed_modules_of (_env_variables w)).
    match goal with |- context [for_each mods ?b ?w'] =>
      exists (trace (for_each mods b w')); set (r := for_each mods b w') end.
    split; [reflexivity|]. split; [|split].
    + intros Hm. subst r. now rewrite Hm.
    + intros Hq. rewrite !after_res. subst r.
      destruct (modules_loop_runs env a mods Hq (nxt env (nxt env w))) as [R T].
      auto.
    + intros Hq Ha Hm. subst r.
      destruct (modules_loop_runs env a mods Hq (nxt env (nxt env w))) as [R T].
      rewrite T, Ha, Hm. reflexivity.
Qed.

Lemma C7_list_modules_witness :
  exists rest,
    trace (dispatch env_quiet (packet_of "USMOD")
             (set_environment_variables
                (Some [("installedModules", Some [("alpha", Some "1.0"); ("beta", None)])])
                module_init))
      = Jot "MOD message received." :: GetAddress :: rest /\
    rest = [SendBroadcast "UM007:alpha:1.0"; SleepMs 1000; WdtFeed;
            SendBroadcast "UM007:beta:None"; SleepMs 1000; WdtFeed].
Proof.
  destruct (C7_list_modules env_quiet (packet_of "USMOD")
              (set_environment_variables
                 (Some [("installedModules", Some [("alpha", Some "1.0"); ("beta", None)])])
                 module_init) eq_refl) as (rest & T & _ & _ & C).
  exists rest. split; [exact T|].
  apply C; reflexivity.
Defined.

(** * The loop boundary *)

Lemma loop_handler_returns (env : Env) (e : exn) (w : Machine) :
  res ((print_exception env e ;; jot_exception env e) w) = Ret tt.
Proof. reflexivity. Qed.

(** What leaves an iteration as an exception was not caught: it is not an
    instance of [Exception], and the handler did not run. *)
Lemma loop_iteration_raises (env : Env) (fuel : nat) (w : Machine) (e : exn) :
  res (loop_iteration env fuel w) = Raise e ->
  is_Exception e = false /\
  loop_iteration env fuel w = operating_mode env fuel w.
Proof.
  unfold loop_iteration.
  destruct (res (operating_mode env fuel w)) as [a|e0| |] eqn:E.
  - rewrite try_except_quiet by (intros x; rewrite E; discriminate).
    rewrite E. discriminate.
  - destruct (is_Exception e0) eqn:X.
    + rewrite (try_except_caught _ _ _ e0 E X), after_res, loop_handler_returns.
      discriminate.
    + rewrite (try_except_passes _ _ _ e0 E X), E.
      intros H. injection H as <-. auto.
  - rewrite try_except_quiet by (intros x; rewrite E; discriminate).
    rewrite E. discriminate.
  - rewrite try_except_quiet by (intros x; rewrite E; discriminate).
    rewrite E. discriminate.
Qed.

Lemma mainloop_unfold (env : Env) (n fuel : nat) (w : Machine) :
  mainloop env (S n) fuel w =
  bind (loop_iteration env fuel) (fun _ => mainloop env n fuel) w.
Proof. unfold mainloop. simpl while_. now rewrite run_ret. Qed.

(** C8, as stated, fails: the handler of the loop names [Exception], and a
    [KeyboardInterrupt] is not one.  Raised by the line driver when the node
    is about to sleep (step 55, in the first iteration), it is neither
    printed nor logged, and it ends the loop. *)
Lemma C8_loop_boundary_counterexample :
  res (run_mainloop (env_failing 55 KeyboardInterrupt) 3 3 module_init)
    = Raise KeyboardInterrupt /\
  (exists pre,
     trace (run_mainloop (env_failing 55 KeyboardInterrupt) 3 3 module_init)
     = pre ++ [TxForceOff]) /\
  ~ In (PrintException KeyboardInterrupt)
       (trace (run_mainloop (env_failing 55 KeyboardInterrupt) 3 3 module_init)) /\
  ~ In (JotException KeyboardInterrupt)
       (trace (run_mainloop (env_failing 55 KeyboardInterrupt) 3 3 module_init)).
Proof.
  split; [vm_compute; reflexivity|]. split.
  - exists (firstn 55
              (trace (run_mainloop (env_failing 55 KeyboardInterrupt) 3 3 module_init))).
    vm_compute. reflexivity.
  - split; vm_compute; intros H;
      repeat (destruct H as [H|H]; [discriminate H|]); exact H.
Qed.

(** C8: an instance of [Exception] raised inside an iteration is caught by
    the handler of the iteration, which prints and logs it; the iteration
    then completes and the loop goes on with the next one.  An exception that
    is not an instance of [Exception] is not caught: it is neither printed
    nor logged and it ends the loop.  Nothing else leaves an iteration as an
    exception, and the loop never returns: however long it is observed, it is
    still running, unless the device was reset or such an exception ended
    it. *)
Theorem C8_loop_boundary (env : Env) (fuel : nat) (w : Machine) :
  (forall e, res (operating_mode env fuel w) = Raise e ->
     is_Exception e = true ->
     res (loop_iteration env fuel w) = Ret tt /\
     trace (loop_iteration env fuel w) =
       trace (operating_mode env fuel w) ++ [PrintException e; JotException e] /\
     forall n, mainloop env (S n) fuel w =
               after (trace (loop_iteration env fuel w))
                 (mainloop env n fuel (final (loop_iteration env fuel w)))) /\
  (forall e, res (operating_mode env fuel w) = Raise e ->
     is_Exception e = false ->
     loop_iteration env fuel w = operating_mode env fuel w /\
     forall n, res (mainloop env (S n) fuel w) = Raise e /\
               trace (mainloop env (S n) fuel w) = trace (operating_mode env fuel w)) /\
  (forall e, res (loop_iteration env fuel w) = Raise e -> is_Exception e = false) /\
  (forall n, res (mainloop env n fuel w) = OutOfFuel \/
             res (mainloop env n fuel w) = DeviceReset \/
             exists e, res (mainloop env n fuel w) = Raise e /\
                       is_Exception e = false).
Proof.
  split; [|split; [|split]].
  - intros e H X.
    assert (L : loop_iteration env fuel w =
                after (trace (operating_mode env fuel w))
                  ((print_exception env e ;; jot_exception env e)
                     (final (operating_mode env fuel w)))).
    { unfold loop_iteration. rewrite (try_except_caught _ _ _ e H X). reflexivity. }
    assert (R : res (loop_iteration env fuel w) = Ret tt).
    { rewrite L, after_res. apply loop_handler_returns. }
    split; [exact R|]. split.
    + rewrite L, after_trace. reflexivity.
    + intros n. rewrite mainloop_unfold. exact (bind_returns _ _ _ tt R).
  - intros e H X.
    assert (L : loop_iteration env fuel w = operating_mode env fuel w).
    { unfold loop_iteration. exact (try_except_passes _ _ _ e H X). }
    split; [exact L|].
    assert (H' : res (loop_iteration env fuel w) = Raise e) by (rewrite L; exact H).
    intros n. rewrite mainloop_unfold. split.
    + exact (bind_raise_res _ _ _ e H').
    + rewrite (bind_raise_trace _ _ _ e H'), L. reflexivity.
  - intros e H. exact (proj1 (loop_iteration_raises env fuel w e H)).
  - intros n. revert w. induction n as [|n IH]; intros w.
    + left. reflexivity.
    + rewrite mainloop_unfold.
      destruct (res (loop_iteration env fuel w)) as [[]|e| |] eqn:E.
      * rewrite (bind_returns _ _ _ tt E), after_res. apply IH.
      * right. right. exists e. split.
        -- exact (bind_raise_res _ _ _ e E).
        -- exact (proj1 (loop_iteration_raises env fuel w e E)).
      * right. left. unfold bind. rewrite E. reflexivity.
      * left. unfold bind. rewrite E. reflexivity.
Qed.

(** The line driver fails when the node is about to sleep (step 13 of the
    first iteration).  An [OSError] is caught and the loop goes on; a
    [SystemExit] is not and the loop ends. *)
Lemma C8_loop_boundary_witness :
  (res (operating_mode (env_failing 13 (Exception "EIO")) 1 module_init)
     = Raise (Exception "EIO") /\
   res (loop_iteration (env_failing 13 (Exception "EIO")) 1 module_init) = Ret tt /\
   trace (loop_iteration (env_failing 13 (Exception "EIO")) 1 module_init) =
     trace (operating_mode (env_failing 13 (Exception "EIO")) 1 module_init)
       ++ [PrintException (Exception "EIO"); JotException (Exception "EIO")]) /\
  (res (operating_mode (env_failing 13 SystemExit) 1 module_init) = Raise SystemExit /\
   res (mainloop (env_failing 13 SystemExit) 2 1 module_init) = Raise SystemExit).
Proof.
  assert (H : res (operating_mode (env_failing 13 (Exception "EIO")) 1 module_init)
              = Raise (Exception "EIO")) by reflexivity.
  assert (K : res (operating_mode (env_failing 13 SystemExit) 1 module_init)
              = Raise SystemExit) by reflexivity.
  split.
  - split; [exact H|].
    destruct (proj1 (C8_loop_boundary (env_failing 13 (Exception "EIO")) 1 module_init)
                (Exception "EIO") H eq_refl) as (R & T & _).
    split; [exact R | exact T].
  - split; [exact K|].
    destruct (proj1 (proj2 (C8_loop_boundary (env_failing 13 SystemExit) 1 module_init))
                SystemExit K eq_refl) as (_ & L).
    exact (proj1 (L 1%nat)).
Defined.

(** * Invariants that only look at the events *)

Lemma all_events_snoc (P : event -> Prop) (e : event) :
  P e -> forall h (w w' : Machine), all_events P h w -> all_events P (h ++ [e]) w'.
Proof.
  unfold all_events. intros He h w w' H. apply Forall_app. split; [assumption|].
  constructor; [assumption|constructor].
Qed.

(** An invariant that holds of the empty history holds of a whole run. *)
Lemma inv_run {A : Type} (I : list event -> Machine -> Prop) (m : M A) (w : Machine) :
  inv I m -> I [] w -> I (trace (m w)) (final (m w)).
Proof. intros H H0. exact (H [] w H0). Qed.

Lemma all_events_run {A : Type} (P : event -> Prop) (m : M A) (w : Machine) :
  inv (all_events P) m -> Forall P (trace (m w)).
Proof. intros H. exact (H [] w (Forall_nil P)). Qed.

Ltac head_of t :=
  lazymatch t with
  | ?f _ => head_of f
  | _ => t
  end.

(** Walks a program along its structure; [special] is tried first at every
    node and the walk goes on with what it leaves, [prim] closes the
    obligation of a primitive. *)
Ltac inv_walk special prim :=
  first
  [ special; inv_walk special prim
  | lazymatch goal with
    | |- inv _ (bind _ _) =>
        apply inv_bind; [ inv_walk special prim | intros; inv_walk special prim ]
    | |- inv _ (ret _) => apply inv_ret
    | |- inv _ (raise _) => apply inv_raise
    | |- inv _ (try_except _ _) =>
        apply inv_try_except; [ inv_walk special prim | intros; inv_walk special prim ]
    | |- inv _ (try_finally _ _) =>
        apply inv_try_finally; inv_walk special prim
    | |- inv _ (while_ _ _ _) => apply inv_while; inv_walk special prim
    | |- inv _ (for_each _ _) => apply inv_for_each; intros; inv_walk special prim
    | |- inv _ (call _ _) => apply inv_call; prim
    | |- inv _ (collab _ _) => apply inv_collab; prim
    | |- inv _ (file_op _ _) => apply inv_file_op; prim
    | |- inv _ (query _ _ _) => apply inv_query; prim
    | |- inv _ (read_global _ _ _) => apply inv_read_global; intros; prim
    | |- inv _ (utime_time_now _) => apply inv_utime_time_now; intros; prim
    | |- inv _ (machine_reset _) => apply inv_machine_reset; prim
    | |- inv _ (write_flag _ _) => apply inv_write_flag; prim
    | |- inv _ (ext_int _ _) => apply inv_ext_int; prim
    | |- inv _ read_env_variables => apply inv_read_env_variables
    | |- inv _ (if ?c then _ else _) => destruct c; inv_walk special prim
    | |- inv _ ?m =>
        let h := head_of m in unfold h; cbv beta iota; inv_walk special prim
    end ].

(** A broadcast followed by a pause and a feed, handled as one block by the
    lemma [lem]. *)
Ltac at_send_pause_feed lem :=
  idtac;
  lazymatch goal with
  | |- inv _ (bind (send_broadcast_message _ _)
                (fun _ => bind (sleep_ms _ _) (fun _ => wdt_feed _))) => apply lem
  end.

(** A read of the flag and what follows it, handled by the lemma [lem]; the
    walk goes on with the continuation. *)
Ltac at_flag_read lem :=
  idtac;
  lazymatch goal with
  | |- inv _ (bind (read_flag _) _) => apply lem; intros
  end.

(** Closes the obligation of a primitive for [all_events P], [P] being the
    negation of a test that computes. *)
Ltac all_events_prim :=
  unfold keeps;
  let h := fresh "h" in let w := fresh "w" in let H := fresh "H" in
  intros h w H; refine (all_events_snoc _ _ _ h w _ H); reflexivity.

Ltac all_events_walk := inv_walk fail all_events_prim.

Lemma sleep_stage_never_polls (env : Env) (fuel : nat) :
  inv (all_events (fun e => is_poll e = false)) (sleep_stage env fuel).
Proof. all_events_walk. Qed.


(** * The active window *)

Ltac unfold_prims :=
  unfold wdt_feed, sleep_ms, jot, jot_exception, print, print_exception,
    get_address, get_battery_voltage, send_broadcast_message,
    has_received_packet, get_received_packet,
    read_flag, read_seconds, read_millis, read_micros in *.

Ltac run1 :=
  first [ rewrite bind_assoc | rewrite run_call | rewrite run_read_global
        | rewrite run_write_flag | rewrite run_utime_time_now | rewrite run_ret ].

Ltac run := repeat run1.

(** Flattens the trace of nested [after]. *)
Ltac traces :=
  repeat first [ rewrite trace_after_cons | rewrite trace_after_nil ];
  cbn [trace].

(** Finds an event in a trace that is spelled out up to it. *)
Ltac find_event := repeat first [ apply in_eq | apply in_cons ].

(** Once the branch of lines 231-318 is entered, the receiver is polled. *)
Lemma poll_and_dispatch_polls {B : Type} (env : Env) (fuel : nat)
    (k : unit -> M B) (w : Machine) :
  In PollReceiver (trace (bind (poll_and_dispatch env fuel) k w)).
Proof.
  unfold poll_and_dispatch. unfold_prims. run.
  destruct (_nm3_callback_flag (nxt env w)); run; rewrite run_collab;
    destruct (raises env _); traces; find_event.
Qed.

(** C4: in every iteration the polling branch is entered (the receiver is
    polled) exactly when the flag is read true, or is read false and the time
    then read is strictly less than the wake second then read plus 30.  The
    three values are read afresh in every iteration, right after the watchdog
    feed and the rail enable, and nothing else enters the decision. *)
Theorem C4_active_window (env : Env) (fuel : nat) (w : Machine) :
  In PollReceiver (trace (operating_mode env fuel w)) <->
  ((exists rest,
      trace (operating_mode env fuel w) =
      WdtFeed :: En3V3 true :: ReadFlag true :: rest) \/
   (exists now seconds rest,
      trace (operating_mode env fuel w) =
      WdtFeed :: En3V3 true :: ReadFlag false :: Time now :: ReadSeconds seconds :: rest /\
      now < seconds + 30)).
Proof.
  unfold operating_mode, poll_stage, in_active_window. unfold_prims. run.
  set (w2 := nxt env (nxt env (nxt env w))).
  destruct (_nm3_callback_flag w2) eqn:F.
  - run. traces. split; [intros _|intros _].
    + left. eexists. reflexivity.
    + do 3 apply in_cons. apply poll_and_dispatch_polls.
  - run. set (now := wall_clock env (step w2)).
    set (w4 := nxt env (nxt env w2)).
    set (seconds := _nm3_callback_seconds w4).
    destruct (now <? seconds + 30) eqn:C.
    + apply Z.ltb_lt in C. traces. split; [intros _|intros _].
      * right. exists now, seconds. eexists. split; [reflexivity|exact C].
      * do 5 apply in_cons. apply poll_and_dispatch_polls.
    + apply Z.ltb_ge in C. run. traces.
      pose proof (all_events_run _ _ w4 (sleep_stage_never_polls env fuel)) as N.
      revert N. generalize (trace (sleep_stage env fuel w4)). intros tl N.
      split.
      * intros H. exfalso.
        do 5 (apply in_inv in H; destruct H as [H|H]; [discriminate H|]).
        rewrite Forall_forall in N. specialize (N _ H). discriminate N.
      * intros [(rest & H)|(n & s & rest & H & L)].
        -- exfalso. injection H as H. discriminate H.
        -- exfalso. injection H as Hn Hs _. lia.
Qed.

Lemma nxt_quiet (env : Env) (w : Machine) :
  (forall n, irq env n = []) -> nxt env w = next_step w.
Proof.
  intros H. unfold nxt. rewrite service_quiet; [reflexivity|]. right. apply H.
Qed.

(** C10: at the boundary instant (flag false, no edge arriving, the clock
    standing at the last wake second plus exactly 30) an iteration feeds the
    watchdog, enables the rail, evaluates the two tests, and does nothing
    else: it neither polls nor starts the sleep transition. *)
Theorem C10_boundary_instant (env : Env) (fuel : nat) (w : Machine) :
  _nm3_callback_flag w = false ->
  (forall n, irq env n = []) ->
  (forall n, wall_clock env n = _nm3_callback_seconds w + 30) ->
  res (operating_mode env fuel w) = Ret tt /\
  trace (operating_mode env fuel w) =
    [WdtFeed; En3V3 true;
     ReadFlag false; Time (_nm3_callback_seconds w + 30);
     ReadSeconds (_nm3_callback_seconds w);
     ReadFlag false; Time (_nm3_callback_seconds w + 30);
     ReadSeconds (_nm3_callback_seconds w)] /\
  final (operating_mode env fuel w) = Nat.iter 8 next_step w.
Proof.
  intros F Q T.
  unfold operating_mode, poll_stage, in_active_window, sleep_stage,
    too_long_since_synch.
  unfold_prims. run. rewrite !(nxt_quiet env _ Q).
  cbn [next_step _nm3_callback_flag _nm3_callback_seconds]. rewrite F.
  cbv iota. run. rewrite !(nxt_quiet env _ Q).
  cbn [next_step _nm3_callback_flag _nm3_callback_seconds]. rewrite !T.
  rewrite Z.ltb_irrefl. run. rewrite !(nxt_quiet env _ Q).
  cbn [next_step _nm3_callback_flag _nm3_callback_seconds]. rewrite F.
  cbn [negb]. cbv iota. run. rewrite !(nxt_quiet env _ Q).
  cbn [next_step _nm3_callback_flag _nm3_callback_seconds]. rewrite !T.
  rewrite Z.ltb_irrefl. run.
  repeat split.
Qed.

Lemma C10_boundary_instant_witness :
  res (operating_mode env_quiet 1
         (set_flag false (nm3_callback (mkClock 0 0 970) module_init))) = Ret tt /\
  trace (operating_mode env_quiet 1
           (set_flag false (nm3_callback (mkClock 0 0 970) module_init))) =
    [WdtFeed; En3V3 true;
     ReadFlag false; Time 1000; ReadSeconds 970;
     ReadFlag false; Time 1000; ReadSeconds 970].
Proof.
  destruct (C10_boundary_instant env_quiet 1
              (set_flag false (nm3_callback (mkClock 0 0 970) module_init)))
    as (R & T & _); try reflexivity.
  split; [exact R | exact T].
Defined.

(** * Going to sleep *)

Section Sleep.

Variable env : Env.

Lemma handlers_set_flag (l : list Clock) (w : Machine) :
  _nm3_callback_flag w = true \/ l <> [] ->
  _nm3_callback_flag (fold_left (fun w' line => nm3_callback line w') l w) = true.
Proof.
  revert w. induction l as [|c l IH]; intros w [H|H]; simpl.
  - assumption.
  - congruence.
  - apply IH. left. reflexivity.
  - apply IH. left. reflexivity.
Qed.



Lemma sleep_until_flag_step (fuel : nat) (w : Machine) :
  sleep_until_flag env (S fuel) w =
  if _nm3_callback_flag (nxt env w)
  then mkResult (Ret tt) (nxt env w) [ReadFlag true]
  else after [ReadFlag false; WdtFeed; LightSleep]
         (sleep_until_flag env fuel (nxt env (nxt env (nxt env w)))).
Proof.
  unfold sleep_until_flag. simpl while_. unfold_prims. run.
  destruct (_nm3_callback_flag (nxt env w)); run.
  - reflexivity.
  - cbn [negb]. cbv iota. run. rewrite !after_after. reflexivity.
Qed.

(** The loop feeds and sleeps, round after round, and leaves only on reading
    the flag true. *)
Lemma sleep_until_flag_shape (fuel : nat) (w : Machine) :
  exists k, (k <= fuel)%nat /\
    ((res (sleep_until_flag env fuel w) = Ret tt /\
      trace (sleep_until_flag env fuel w) = naps k ++ [ReadFlag true] /\
      _nm3_callback_flag (final (sleep_until_flag env fuel w)) = true) \/
     (res (sleep_until_flag env fuel w) = OutOfFuel /\
      k = fuel /\
      trace (sleep_until_flag env fuel w) = naps fuel)).
Proof.
  revert w. induction fuel as [|fuel IH]; intros w.
  - exists 0%nat. split; [lia|]. right. repeat split.
  - rewrite sleep_until_flag_step.
    destruct (_nm3_callback_flag (nxt env w)) eqn:F.
    + exists 0%nat. split; [lia|]. left. repeat split. exact F.
    + destruct (IH (nxt env (nxt env (nxt env w)))) as (k & Hk & H).
      exists (S k). split; [lia|].
      rewrite after_res, after_final, after_trace.
      destruct H as [(R & T & G)|(R & K & T)].
      * left. rewrite R, T. repeat split. exact G.
      * right. rewrite R, T. subst k. repeat split.
Qed.






End Sleep.







(** The same run, spelled out: two rounds of sleep, the flag read true, the
    wake-up. *)
Example sleep_stage_woken :
  trace (sleep_stage (env_edge 16 (mkClock 7000000 7000 1000)) 5
           (set_extint true module_init)) =
  [ReadFlag false; Time 1000; ReadSeconds 0; ReadFlag false;
   Print "Going to sleep."; Jot "Going to sleep.";
   PinIn "PULL_SCL"; PinIn "PULL_SDA"; TxForceOff;
   En3V3 false; LedOff 2; SleepMs 10;
   ReadFlag false; WdtFeed; LightSleep;
   ReadFlag false; WdtFeed; LightSleep;
   ReadFlag true;
   WdtFeed; En3V3 true; TxForceOn; PinOut "PULL_SCL" 1; PinOut "PULL_SDA" 1].
Proof. reflexivity. Qed.

(** An edge during the second round of sleep wakes the loop. *)
Example sleep_until_flag_woken :
  sleep_until_flag (env_edge 5 (mkClock 7000000 7000 1000)) 3
    (set_extint true module_init) =
  mkResult (Ret tt)
    {| _env_variables := None;
       _nm3_callback_flag := true;
       _nm3_callback_seconds := 1000;
       _nm3_callback_millis := 7000;
       _nm3_callback_micros := 7000000;
       nm3_extint := true;
       step := 7;
       edges := [mkClock 7000000 7000 1000] |}
    [ReadFlag false; WdtFeed; LightSleep;
     ReadFlag false; WdtFeed; LightSleep;
     ReadFlag true].
Proof. reflexivity. Qed.

(** * Startup *)

Lemma prefix_before (x : event) (head tail pre post : list event) :
  head ++ tail = pre ++ x :: post ->
  Forall (fun e => e <> x) head ->
  exists mid, pre = head ++ mid.
Proof.
  revert pre. induction head as [|h head IH]; intros pre E N.
  - exists pre. reflexivity.
  - inversion N as [|? ? Hh Ht]; subst.
    destruct pre as [|p pre]; simpl in E.
    + injection E as E1 E2. congruence.
    + injection E as E1 E2. subst p.
      destruct (IH pre E2 Ht) as (mid & ->).
      exists mid. reflexivity.
Qed.

Section Startup.

Variable env : Env.

Lemma startup_rails_never_enables :
  inv (all_events (fun e => is_enable_nm3 e = false)) (startup_rails env).
Proof. all_events_walk. Qed.

(** When the first phase completes, the serial port has been opened. *)
Lemma startup_rails_opens_uart (w : Machine) (a : unit) :
  res (startup_rails env w) = Ret a -> In UartOpen (trace (startup_rails env w)).
Proof.
  unfold startup_rails. unfold_prims. run.
  rewrite run_collab. destruct (raises env _); [discriminate|]. run.
  rewrite run_collab. destruct (raises env _); [discriminate|]. run.
  rewrite run_collab. destruct (raises env _); [discriminate|]. run.
  rewrite run_collab. destruct (raises env _); [discriminate|].
  rewrite !run_ext_int. run.
  intros _. traces. find_event.
Qed.

Lemma run_mainloop_starts (iterations fuel : nat) (w : Machine) :
  exists rest,
    trace (run_mainloop env iterations fuel w) =
    WdtInit 30000
    :: Jot ("Reset cause: " ++ last_reset_cause env)
    :: Print ("last_reset_cause=" ++ last_reset_cause env) :: rest.
Proof.
  unfold run_mainloop, startup_rails. unfold_prims. run. traces.
  eexists. reflexivity.
Qed.

End Startup.

(** C9: the reset cause is logged (and printed) right after the watchdog is
    started, before any call that acts on a rail or a pin; the text logged
    names the cause that [machine.reset_cause()] gives, "UNDEFINED_RESET" for
    a value that is none of the five constants; and whenever the modem is
    powered on, the serial port was opened before. *)
Theorem C9_startup_order (env : Env) (iterations fuel : nat) (w : Machine) :
  (exists rest,
     trace (run_mainloop env iterations fuel w) =
     WdtInit 30000
     :: Jot ("Reset cause: " ++ last_reset_cause env)
     :: Print ("last_reset_cause=" ++ last_reset_cause env) :: rest) /\
  (forall pre e post,
     trace (run_mainloop env iterations fuel w) = pre ++ e :: post ->
     touches_rail_or_pin e = true ->
     In (Jot ("Reset cause: " ++ last_reset_cause env)) pre) /\
  (forall pre post,
     trace (run_mainloop env iterations fuel w) = pre ++ EnableNm3 :: post ->
     In UartOpen pre) /\
  last_reset_cause env =
    match reset_cause env with
    | PWRON_RESET => "PWRON_RESET"
    | HARD_RESET => "HARD_RESET"
    | WDT_RESET => "WDT_RESET"
    | DEEPSLEEP_RESET => "DEEPSLEEP_RESET"
    | SOFT_RESET => "SOFT_RESET"
    | OTHER_RESET => "UNDEFINED_RESET"
    end.
Proof.
  split; [|split; [|split]].
  - apply run_mainloop_starts.
  - destruct (run_mainloop_starts env iterations fuel w) as (rest & ->).
    intros pre e post E T.
    destruct pre as [|x [|y pre]]; simpl in E.
    + injection E as E _. subst e. discriminate T.
    + injection E as _ E _. subst e. discriminate T.
    + injection E as _ E _. subst y. right. left. reflexivity.
  - unfold run_mainloop. intros pre post E.
    pose proof (all_events_run _ _ w (startup_rails_never_enables env)) as N.
    pose proof (startup_rails_opens_uart env w) as U.
    destruct (bind_cases (startup_rails env)
                (fun _ => bind (power_on_nm3 env)
                            (fun _ => bind (announce env)
                                        (fun _ => mainloop env iterations fuel))) w)
      as [(a & R & B)|(_ & T & _)].
    + rewrite B, after_trace in E. specialize (U a R).
      revert E N U. generalize (trace (startup_rails env w)).
      match goal with |- context [trace ?r] => generalize (trace r) end.
      intros tail head E N U.
      destruct (prefix_before EnableNm3 head tail pre post E) as (mid & ->).
      * eapply Forall_impl; [|exact N]. intros e He Heq. subst e. discriminate He.
      * apply in_or_app. now left.
    + rewrite T in E. exfalso. revert E N.
      generalize (trace (startup_rails env w)). intros head E N.
      rewrite Forall_forall in N.
      assert (I : In EnableNm3 head) by (rewrite E; apply in_or_app; right; apply in_eq).
      specialize (N _ I). discriminate N.
  - unfold last_reset_cause. destruct (reset_cause env); reflexivity.
Qed.

(** After a soft reset: the cause is in the log before the LED, the first
    pin that is touched, and the serial port is open before the modem is
    powered. *)
Lemma C9_startup_order_witness :
  In (Jot "Reset cause: SOFT_RESET")
    [WdtInit 30000; Jot "Reset cause: SOFT_RESET"; Print "last_reset_cause=SOFT_RESET";
     WdtFeed] /\
  In UartOpen
    [WdtInit 30000; Jot "Reset cause: SOFT_RESET"; Print "last_reset_cause=SOFT_RESET";
     WdtFeed; LedOn 2; Jot "Powering off NM3"; PowerModuleNew; DisableNm3;
     En3V3 true; PinOut "Y5" 0; Max3221eNew; TxForceOn; ExtInt false; ExtInt true;
     UartOpen; Nm3New; SleepMs 20; WdtFeed; Jot "Powering on NM3"; SleepMs 10000].
Proof.
  split.
  - apply (proj1 (proj2 (C9_startup_order (env_after_reset SOFT_RESET) 0 0 module_init))
             [WdtInit 30000; Jot "Reset cause: SOFT_RESET";
              Print "last_reset_cause=SOFT_RESET"; WdtFeed]
             (LedOn 2)
             (skipn 5 (trace (run_mainloop (env_after_reset SOFT_RESET) 0 0 module_init)))).
    + vm_compute. reflexivity.
    + reflexivity.
  - apply (proj1 (proj2 (proj2 (C9_startup_order (env_after_reset SOFT_RESET) 0 0
                                  module_init)))
             _ (skipn 21 (trace (run_mainloop (env_after_reset SOFT_RESET) 0 0
                                   module_init)))).
    vm_compute. reflexivity.
Defined.

(** * Delays and the watchdog *)

(** An occurrence of [x] in [h ++ b] lies in [h] or in [b]. *)
Lemma app_occurrence {A : Type} (h b pre post : list A) (x : A) :
  h ++ b = pre ++ x :: post ->
  (exists post', h = pre ++ x :: post' /\ post = post' ++ b) \/
  (exists pre', pre = h ++ pre' /\ b = pre' ++ x :: post).
Proof.
  intros E. destruct (app_eq_app _ _ _ _ E) as (l & [[E1 E2]|[E1 E2]]).
  - destruct l as [|y l].
    + right. exists []. rewrite app_nil_r in *. simpl in E2. auto.
    + left. simpl in E2. injection E2 as -> ->. exists l. auto.
  - right. exists l. auto.
Qed.

Lemma delay_in_place_more (pre post more : list event) (n : Z) :
  delay_in_place False pre n post -> delay_in_place False pre n (post ++ more).
Proof.
  intros [(N & P & q & ->)|[(N & P & [(q & ->)|[[] _]])|(N & P & q & ->)]].
  - left. split; [exact N|]. split; [exact P|]. eexists. reflexivity.
  - right. left. split; [exact N|]. split; [exact P|]. left. eexists. reflexivity.
  - right. right. split; [exact N|]. split; [exact P|]. eexists. reflexivity.
Qed.

Lemma delay_in_place_cut (cut : Prop) (pre post : list event) (n : Z) :
  delay_in_place False pre n post -> delay_in_place cut pre n post.
Proof.
  intros [H|[(N & P & [Q|[[] _]])|H]].
  - left. exact H.
  - right. left. auto.
  - right. right. exact H.
Qed.

Lemma delays_placed_cut (cut : Prop) (h : list event) :
  delays_placed False h -> delays_placed cut h.
Proof. intros H pre n post E L. apply delay_in_place_cut. now apply H. Qed.

(** Appending a block: the delays of the history keep their place, those of
    the block have to be placed. *)
Lemma delays_placed_block (cut : Prop) (h b : list event) :
  delays_placed False h ->
  (forall pre' n post,
     b = pre' ++ SleepMs n :: post -> 1000 <= n ->
     delay_in_place cut (h ++ pre') n post) ->
  delays_placed cut (h ++ b).
Proof.
  intros H B pre n post E L.
  destruct (app_occurrence _ _ _ _ _ E) as [(post' & Eh & ->)|(pre' & -> & Eb)].
  - apply delay_in_place_cut, delay_in_place_more. now apply H.
  - now apply B.
Qed.

Lemma delays_placed_snoc (e : event) (h : list event) :
  long_delay e = false -> delays_placed False h -> delays_placed False (h ++ [e]).
Proof.
  intros Q H. apply delays_placed_block; [exact H|].
  intros pre' n post E L. exfalso.
  destruct pre' as [|x pre']; simpl in E.
  - injection E as -> _. simpl in Q. apply Z.leb_le in L. congruence.
  - injection E as _ E. destruct pre'; discriminate E.
Qed.

(** A broadcast of the list-modules loop, its pause and the feed. *)
Lemma delays_placed_send_pause_feed (a : Z) (m : string) (v : option string)
    (h : list event) :
  delays_placed False h ->
  delays_placed False (h ++ [SendBroadcast (mod_string a m v); SleepMs 1000; WdtFeed]).
Proof.
  intros H. apply delays_placed_block; [exact H|].
  intros pre' n post E L.
  destruct pre' as [|x [|y [|z pre']]]; simpl in E.
  - discriminate E.
  - injection E as <- <- <-. left. split; [reflexivity|]. split.
    + exists h, a, m, v. reflexivity.
    + exists []. reflexivity.
  - injection E as _ _ E. discriminate E.
  - injection E as _ _ _ E. destruct pre'; discriminate E.
Qed.

(** The power-on phase, run to its end. *)
Lemma delays_placed_power_on (h : list event) :
  delays_placed False h ->
  delays_placed False
    (h ++ [WdtFeed; Jot "Powering on NM3"; SleepMs 10000; EnableNm3;
           SleepMs 10000; WdtFeed]).
Proof.
  intros H. apply delays_placed_block; [exact H|].
  intros pre' n post E L.
  destruct pre' as [|x1 [|x2 [|x3 [|x4 [|x5 [|x6 pre']]]]]]; simpl in E.
  - discriminate E.
  - injection E as _ E. discriminate E.
  - injection E as <- <- <- <-. right. left. split; [reflexivity|]. split.
    + exists h. reflexivity.
    + left. exists []. reflexivity.
  - injection E as _ _ _ E. discriminate E.
  - injection E as <- <- <- <- <- <-. right. right. split; [reflexivity|]. split.
    + exists h. reflexivity.
    + exists []. reflexivity.
  - injection E as _ _ _ _ _ E. discriminate E.
  - injection E as _ _ _ _ _ _ E. destruct pre'; discriminate E.
Qed.

(** The power-on phase, ended by a failure of the power-on call. *)
Lemma delays_placed_power_on_fails (cut : Prop) (h : list event) :
  cut ->
  delays_placed False h ->
  delays_placed cut (h ++ [WdtFeed; Jot "Powering on NM3"; SleepMs 10000; EnableNm3]).
Proof.
  intros C H. apply delays_placed_block; [exact H|].
  intros pre' n post E L.
  destruct pre' as [|x1 [|x2 [|x3 [|x4 pre']]]]; simpl in E.
  - discriminate E.
  - injection E as _ E. discriminate E.
  - injection E as <- <- <- <-. right. left. split; [reflexivity|]. split.
    + exists h. reflexivity.
    + right. split; [exact C|reflexivity].
  - injection E as _ _ _ E. discriminate E.
  - injection E as _ _ _ _ E. destruct pre'; discriminate E.
Qed.

Section Delays.

Variable env : Env.

Lemma inv_send_pause_feed (a : Z) (m : string) (v : option string) :
  inv delays_in_place
    (bind (send_broadcast_message env (mod_string a m v))
       (fun _ => bind (sleep_ms env 1000) (fun _ => wdt_feed env))).
Proof.
  intros h w H. unfold delays_in_place in *. unfold_prims.
  rewrite run_collab. destruct (raises env _).
  - cbn [trace]. apply delays_placed_snoc; [reflexivity|exact H].
  - rewrite run_call. traces. rewrite call_alone. cbn [trace].
    now apply delays_placed_send_pause_feed.
Qed.

Lemma delays_in_place_keeps (e : event) :
  long_delay e = false -> keeps env delays_in_place e.
Proof. intros L h w H. apply delays_placed_snoc; assumption. Qed.

Lemma delays_in_place_any_state (e : event) (h : list event) (w w' : Machine) :
  long_delay e = false -> delays_in_place h w -> delays_in_place (h ++ [e]) w'.
Proof. intros L H. apply delays_placed_snoc; assumption. Qed.

Lemma startup_rails_delays : inv delays_in_place (startup_rails env).
Proof.
  inv_walk ltac:(at_send_pause_feed inv_send_pause_feed)
           ltac:(first [ apply delays_in_place_keeps; reflexivity
                       | intros; eapply delays_in_place_any_state;
                         [reflexivity|eassumption] ]).
Qed.

Lemma announce_and_loop_delays (iterations fuel : nat) :
  inv delays_in_place (bind (announce env) (fun _ => mainloop env iterations fuel)).
Proof.
  inv_walk ltac:(at_send_pause_feed inv_send_pause_feed)
           ltac:(first [ apply delays_in_place_keeps; reflexivity
                       | intros; eapply delays_in_place_any_state;
                         [reflexivity|eassumption] ]).
Qed.

(** The power-on phase, run to its end or up to a failing power-on call. *)
Lemma power_on_nm3_runs {B : Type} (k : unit -> M B) (w : Machine) :
  (exists e w',
     bind (power_on_nm3 env) k w =
     mkResult (Raise e) w'
       [WdtFeed; Jot "Powering on NM3"; SleepMs 10000; EnableNm3]) \/
  (exists w',
     bind (power_on_nm3 env) k w =
     after [WdtFeed; Jot "Powering on NM3"; SleepMs 10000; EnableNm3;
            SleepMs 10000; WdtFeed] (k tt w')).
Proof.
  unfold power_on_nm3. unfold_prims. run. rewrite run_collab.
  destruct (raises env _) as [e|].
  - left. eexists. eexists. reflexivity.
  - right. run. rewrite !after_after. eexists. reflexivity.
Qed.

Lemma run_mainloop_delays (iterations fuel : nat) (w : Machine) :
  delays_placed (exists e, res (run_mainloop env iterations fuel w) = Raise e)
    (trace (run_mainloop env iterations fuel w)).
Proof.
  unfold run_mainloop.
  assert (H1 : delays_placed False (trace (startup_rails env w))).
  { apply (inv_run _ _ _ startup_rails_delays).
    intros pre n post E. destruct pre; discriminate E. }
  destruct (bind_cases (startup_rails env)
              (fun _ => bind (power_on_nm3 env)
                          (fun _ => bind (announce env)
                                      (fun _ => mainloop env iterations fuel))) w)
    as [(a & R & B)|(_ & T & _)].
  - rewrite B, after_trace, after_res.
    destruct (power_on_nm3_runs
                (fun _ => bind (announce env) (fun _ => mainloop env iterations fuel))
                (final (startup_rails env w))) as [(e & w' & E)|(w' & E)];
      rewrite E.
    + cbn [trace res]. apply delays_placed_power_on_fails; [|exact H1].
      exists e. reflexivity.
    + rewrite after_trace, after_res. apply delays_placed_cut.
      rewrite app_assoc.
      apply (announce_and_loop_delays iterations fuel
               (trace (startup_rails env w) ++
                [WdtFeed; Jot "Powering on NM3"; SleepMs 10000; EnableNm3;
                 SleepMs 10000; WdtFeed]) w').
      now apply delays_placed_power_on.
  - rewrite T. apply delays_placed_cut. exact H1.
Qed.

End Delays.

(** C2, as stated, fails: at startup the first settle delay of 10 s is
    followed, among feeds and delays, by the second settle delay and not by
    a feed. *)
Lemma C2_delays_counterexample :
  exists pre post,
    filter timed (trace (run_mainloop env_quiet 0 0 module_init)) =
      pre ++ SleepMs 10000 :: post /\
    1000 <= 10000 /\
    ~ (exists q, post = WdtFeed :: q).
Proof.
  exists [WdtFeed; SleepMs 20; WdtFeed].
  exists (skipn 4 (filter timed (trace (run_mainloop env_quiet 0 0 module_init)))).
  split; [vm_compute; reflexivity|]. split; [lia|].
  intros (q & H). vm_compute in H. discriminate H.
Qed.

(** C2, amended: on every run, a delay of at least 1000 ms is one of three.
    The pause of the list-modules loop (1000 ms) comes right after the
    broadcast of a module, not after a feed, and is immediately followed by a
    watchdog feed.  The first settle delay of the power-on (10 s) comes after
    a feed and a log record and is followed by the power-on call, the second
    settle delay and then a feed (or by the power-on call alone when that
    call raises and ends the run).  The second settle delay comes right after
    the power-on call and is immediately followed by a feed.  The power-on
    phase does nothing else. *)
Theorem C2_delays_fed (env : Env) (iterations fuel : nat) (w : Machine) :
  (forall pre n post,
     trace (run_mainloop env iterations fuel w) = pre ++ SleepMs n :: post ->
     1000 <= n ->
     (n = 1000 /\
      (exists p a m v, pre = p ++ [SendBroadcast (mod_string a m v)]) /\
      (exists q, post = WdtFeed :: q)) \/
     (n = 10000 /\
      (exists p, pre = p ++ [WdtFeed; Jot "Powering on NM3"]) /\
      ((exists q, post = EnableNm3 :: SleepMs 10000 :: WdtFeed :: q) \/
       ((exists e, res (run_mainloop env iterations fuel w) = Raise e) /\
        post = [EnableNm3]))) \/
     (n = 10000 /\
      (exists p, pre = p ++ [WdtFeed; Jot "Powering on NM3"; SleepMs 10000; EnableNm3]) /\
      (exists q, post = WdtFeed :: q))) /\
  ((exists e w',
      power_on_nm3 env w =
      mkResult (Raise e) w'
        [WdtFeed; Jot "Powering on NM3"; SleepMs 10000; EnableNm3]) \/
   (exists w',
      power_on_nm3 env w =
      mkResult (Ret tt) w'
        [WdtFeed; Jot "Powering on NM3"; SleepMs 10000; EnableNm3;
         SleepMs 10000; WdtFeed])).
Proof.
  split.
  - intros pre n post E L.
    exact (run_mainloop_delays env iterations fuel w pre n post E L).
  - rewrite <- (bind_ret_tt (power_on_nm3 env) w).
    destruct (power_on_nm3_runs env (fun _ => ret tt) w) as [(e & w' & E)|(w' & E)].
    + left. exists e, w'. exact E.
    + right. exists w'. rewrite E. reflexivity.
Qed.

(** A "USMOD" command with one installed module: the pause of the
    list-modules loop is the event 60 of the run; the broadcast is right
    before it, the feed right after.  And the first settle delay of the
    power-on, the event 19. *)
Lemma C2_delays_fed_witness :
  ((exists p a m v,
      firstn 60 (trace (run_mainloop (env_command "USMOD") 1 1
                          (set_environment_variables
                             (Some [("installedModules", Some [("alpha", Some "1.0")])])
                             module_init)))
      = p ++ [SendBroadcast (mod_string a m v)]) /\
   (exists q,
      skipn 61 (trace (run_mainloop (env_command "USMOD") 1 1
                         (set_environment_variables
                            (Some [("installedModules", Some [("alpha", Some "1.0")])])
                            module_init)))
      = WdtFeed :: q)) /\
  (exists q, skipn 20 (trace (run_mainloop env_quiet 0 0 module_init)) =
             EnableNm3 :: SleepMs 10000 :: WdtFeed :: q).
Proof.
  split.
  - destruct (proj1 (C2_delays_fed (env_command "USMOD") 1 1
                       (set_environment_variables
                          (Some [("installedModules", Some [("alpha", Some "1.0")])])
                          module_init))
                (firstn 60 (trace (run_mainloop (env_command "USMOD") 1 1
                          (set_environment_variables
                             (Some [("installedModules", Some [("alpha", Some "1.0")])])
                             module_init))))
                1000
                (skipn 61 (trace (run_mainloop (env_command "USMOD") 1 1
                          (set_environment_variables
                             (Some [("installedModules", Some [("alpha", Some "1.0")])])
                             module_init)))))
      as [(_ & P & Q)|[(N & _)|(N & _)]].
    + vm_compute. reflexivity.
    + lia.
    + split; [exact P|exact Q].
    + discriminate N.
    + discriminate N.
  - destruct (proj1 (C2_delays_fed env_quiet 0 0 module_init)
                (firstn 19 (trace (run_mainloop env_quiet 0 0 module_init))) 10000
                (skipn 20 (trace (run_mainloop env_quiet 0 0 module_init))))
      as [(N & _)|[(_ & _ & [Q|(_ & Q)])|(_ & _ & (q & Q))]].
    + vm_compute. reflexivity.
    + lia.
    + discriminate N.
    + exact Q.
    + vm_compute in Q. discriminate Q.
    + vm_compute in Q. discriminate Q.
Defined.

(** * The wake latch *)

Lemma count_synch_app (h t : list event) :
  count_synch (h ++ t) = (count_synch h + count_synch t)%nat.
Proof. unfold count_synch. now rewrite filter_app, length_app. Qed.

Lemma count_synch_snoc (h : list event) (e : event) :
  count_synch (h ++ [e]) = (count_synch h + b2n (is_synch_seen e))%nat.
Proof.
  rewrite count_synch_app. unfold count_synch at 2. simpl.
  now destruct (is_synch_seen e).
Qed.

Lemma handlers_count (l : list Clock) (w : Machine) :
  let w' := fold_left (fun w' line => nm3_callback line w') l w in
  (b2n (_nm3_callback_flag w') + List.length (edges w)
   <= List.length (edges w') + b2n (_nm3_callback_flag w))%nat /\
  (List.length (edges w) <= List.length (edges w'))%nat.
Proof.
  revert w. induction l as [|c l IH]; intros w; simpl.
  - split; lia.
  - destruct (IH (nm3_callback c w)) as [A B]. simpl in A, B.
    rewrite length_app in A, B. simpl in A, B.
    destruct (_nm3_callback_flag w); simpl; split; lia.
Qed.

Lemma handlers_latch (l : list Clock) (w : Machine) :
  latch_ok w -> latch_ok (fold_left (fun w' line => nm3_callback line w') l w).
Proof.
  revert w. induction l as [|c l IH]; intros w H; simpl; [assumption|].
  apply IH. unfold latch_ok, latch, latest. simpl.
  rewrite last_last. now destruct c.
Qed.

Section Latch.

Variable env : Env.

Lemma nxt_count (w : Machine) :
  (b2n (_nm3_callback_flag (nxt env w)) + List.length (edges w)
   <= List.length (edges (nxt env w)) + b2n (_nm3_callback_flag w))%nat /\
  (List.length (edges w) <= List.length (edges (nxt env w)))%nat.
Proof.
  unfold nxt, service. cbn [next_step _nm3_callback_flag edges].
  destruct (nm3_extint w).
  - apply handlers_count.
  - split; lia.
Qed.

Lemma nxt_latch (w : Machine) : latch_ok w -> latch_ok (nxt env w).
Proof.
  intros H. unfold nxt, service.
  assert (S : forall v, latch_ok v -> latch_ok (next_step v)) by (intros v Hv; exact Hv).
  apply S. destruct (nm3_extint w); [|assumption].
  now apply handlers_latch.
Qed.

Lemma seen_le_edges_keeps (e : event) :
  is_synch_seen e = false -> keeps env seen_le_edges e.
Proof.
  intros N h w H. unfold seen_le_edges in *.
  rewrite count_synch_snoc, N. cbn [b2n].
  destruct (nxt_count w). lia.
Qed.

Lemma seen_le_edges_clear (h : list event) (w : Machine) :
  seen_le_edges h w ->
  seen_le_edges (h ++ [WriteFlag false]) (set_flag false (nxt env w)).
Proof.
  intros H. unfold seen_le_edges in *.
  rewrite count_synch_snoc. cbn [is_synch_seen b2n set_flag _nm3_callback_flag edges].
  destruct (nxt_count w). destruct (_nm3_callback_flag w); cbn [b2n] in *; lia.
Qed.

Lemma seen_le_edges_ext_int (b : bool) (h : list event) (w : Machine) :
  seen_le_edges h w ->
  seen_le_edges (h ++ [ExtInt b]) (set_extint b (nxt env w)).
Proof.
  intros H. unfold seen_le_edges in *.
  rewrite count_synch_snoc. cbn [is_synch_seen b2n set_extint _nm3_callback_flag edges].
  destruct (nxt_count w). lia.
Qed.

(** Lines 231-234: the flag is read, the observation printed, the flag
    cleared.  The edge that set the flag pays for the observation. *)
Lemma inv_observe_and_clear {B : Type} (k : unit -> M B) :
  (forall a, inv seen_le_edges (k a)) ->
  inv seen_le_edges
    (bind (read_flag env)
       (fun flag =>
          bind (if flag then print env "Has received nm3 synch flag." else ret tt)
            (fun _ => bind (write_flag env false) k))).
Proof.
  intros K h w H. unfold_prims. rewrite run_read_global.
  destruct (_nm3_callback_flag (nxt env w)) eqn:F.
  - rewrite run_call, run_write_flag.
    rewrite !after_after, after_trace, after_final, app_assoc.
    apply K. unfold seen_le_edges in *.
    rewrite count_synch_app.
    set (c := count_synch (_ ++ [WriteFlag false])). vm_compute in c. subst c.
    cbn [set_flag _nm3_callback_flag edges].
    destruct (nxt_count w) as [A _]. rewrite F in A.
    destruct (nxt_count (nxt env w)) as [_ A1].
    destruct (nxt_count (nxt env (nxt env w))) as [_ A2].
    unfold b2n in *. lia.
  - rewrite run_ret, run_write_flag.
    rewrite !after_after, after_trace, after_final, app_assoc.
    apply K. unfold seen_le_edges in *.
    rewrite count_synch_app.
    set (c := count_synch (_ ++ [WriteFlag false])). vm_compute in c. subst c.
    cbn [set_flag _nm3_callback_flag edges].
    destruct (nxt_count w) as [_ A].
    destruct (nxt_count (nxt env w)) as [_ A1].
    unfold b2n in *. lia.
Qed.

End Latch.

Lemma seen_le_edges_le (h : list event) (w : Machine) :
  seen_le_edges h w -> (count_synch h <= List.length (edges w))%nat.
Proof. unfold seen_le_edges. lia. Qed.

Lemma run_mainloop_seen (env : Env) (iterations fuel : nat) :
  inv seen_le_edges (run_mainloop env iterations fuel).
Proof.
  inv_walk ltac:(at_flag_read inv_observe_and_clear)
           ltac:(first [ apply seen_le_edges_keeps; reflexivity
                       | intros; apply seen_le_edges_clear; assumption
                       | intros; apply seen_le_edges_ext_int; assumption ]).
Qed.

Lemma run_mainloop_latch (env : Env) (iterations fuel : nat) :
  inv latch_holds (run_mainloop env iterations fuel).
Proof.
  inv_walk fail
    ltac:(unfold keeps, latch_holds;
          let h := fresh "h" in let w := fresh "w" in let H := fresh "H" in
          intros h w H; exact (nxt_latch env w H)).
Qed.

Lemma copy_timestamps_runs (env : Env) (p : MessagePacket) (w : Machine) :
  copy_timestamps env p w =
  mkResult
    (Ret {| packet_payload := packet_payload p;
            timestamp := localtime (_nm3_callback_seconds (nxt env w));
            timestamp_millis := _nm3_callback_millis (nxt env (nxt env w));
            timestamp_micros :=
              _nm3_callback_micros (nxt env (nxt env (nxt env w))) |})
    (nxt env (nxt env (nxt env w)))
    [ReadSeconds (_nm3_callback_seconds (nxt env w));
     ReadMillis (_nm3_callback_millis (nxt env (nxt env w)));
     ReadMicros (_nm3_callback_micros (nxt env (nxt env (nxt env w))))].
Proof. reflexivity. Qed.

(** C1, as stated, fails: the packet handed to the network module carries
    the seconds of the first edge and the millis and micros of the second;
    no edge wrote all three. *)
Lemma C1_wake_latch_counterexample :
  edges (final (run_mainloop env_two_edges 1 2 module_init)) =
    [mkClock 1000000 1000 100; mkClock 2000000 2000 200] /\
  In (HandlePacket (mkPacket (Some "#AB") (localtime 100) 2000 2000000))
     (trace (run_mainloop env_two_edges 1 2 module_init)) /\
  ~ (exists c,
       In c (edges (final (run_mainloop env_two_edges 1 2 module_init))) /\
       localtime (utime_time c) = localtime 100 /\
       pyb_millis c = 2000 /\
       pyb_micros c = 2000000).
Proof.
  split; [vm_compute; reflexivity|]. split.
  - vm_compute. do 58 right. left. reflexivity.
  - intros (c & H & A & B & C). vm_compute in H.
    destruct H as [H|[H|[]]]; subst c; simpl in *; discriminate.
Qed.

Lemma nxt_quiet_at (env : Env) (w : Machine) :
  nm3_extint w = false \/ irq env (step w) = [] -> nxt env w = next_step w.
Proof. intros H. unfold nxt. now rewrite service_quiet. Qed.

(** C1, amended: on every run the main loop finds the flag set, when it
    consumes it, at most as often as edges occurred, and the globals always
    hold the readings of the latest edge.  The three timestamps copied into
    a packet are read one after the other, each as it stands when it is
    read; they are the readings of one edge, the latest, when no edge
    arrives between the read of the seconds and the read of the micros. *)
Theorem C1_wake_latch (env : Env) (iterations fuel : nat) (ev : option env_dict) :
  (count_synch
     (trace (run_mainloop env iterations fuel (set_environment_variables ev module_init)))
   <= List.length
        (edges (final (run_mainloop env iterations fuel
                         (set_environment_variables ev module_init)))))%nat /\
  latch_ok (final (run_mainloop env iterations fuel
                     (set_environment_variables ev module_init))) /\
  (forall p w,
     res (copy_timestamps env p w) =
     Ret {| packet_payload := packet_payload p;
            timestamp := localtime (_nm3_callback_seconds (nxt env w));
            timestamp_millis := _nm3_callback_millis (nxt env (nxt env w));
            timestamp_micros :=
              _nm3_callback_micros (nxt env (nxt env (nxt env w))) |}) /\
  (forall p w,
     latch_ok w ->
     nm3_extint w = false \/
     (irq env (S (step w)) = [] /\ irq env (S (S (step w))) = []) ->
     exists p',
       res (copy_timestamps env p w) = Ret p' /\
       packet_payload p' = packet_payload p /\
       timestamp p' =
         localtime (utime_time (latest (edges (final (copy_timestamps env p w))))) /\
       timestamp_millis p' =
         pyb_millis (latest (edges (final (copy_timestamps env p w)))) /\
       timestamp_micros p' =
         pyb_micros (latest (edges (final (copy_timestamps env p w))))).
Proof.
  split; [|split; [|split]].
  - apply seen_le_edges_le. apply inv_run; [apply run_mainloop_seen|].
    unfold seen_le_edges. simpl. lia.
  - apply (inv_run latch_holds); [apply run_mainloop_latch|].
    reflexivity.
  - intros p w. rewrite copy_timestamps_runs. reflexivity.
  - intros p w L Q. rewrite copy_timestamps_runs. cbn [res final].
    eexists. split; [reflexivity|]. cbn [packet_payload timestamp timestamp_millis
                                        timestamp_micros].
    assert (Q1 : nxt env (nxt env w) = next_step (nxt env w)).
    { apply nxt_quiet_at. rewrite nxt_extint, nxt_step. tauto. }
    assert (Q2 : nxt env (next_step (nxt env w)) = next_step (next_step (nxt env w))).
    { apply nxt_quiet_at. cbn [next_step nm3_extint step].
      rewrite nxt_extint, nxt_step. tauto. }
    rewrite Q1, Q2. cbn [next_step _nm3_callback_millis _nm3_callback_micros edges].
    apply (nxt_latch env) in L. unfold latch_ok, latch in L. rewrite <- L.
    repeat split.
Qed.

(** After a first edge, a second edge arrives just before the read of the
    seconds and none during the copy: the packet receives the three readings
    of the second edge. *)
Lemma C1_wake_latch_witness :
  exists p',
    res (copy_timestamps (env_edge 0 (mkClock 2000000 2000 1000)) (packet_of "#AB")
           (nm3_callback (mkClock 1000000 1000 999) (set_extint true module_init)))
      = Ret p' /\
    packet_payload p' = packet_payload (packet_of "#AB") /\
    timestamp p' =
      localtime (utime_time (latest (edges (final
        (copy_timestamps (env_edge 0 (mkClock 2000000 2000 1000)) (packet_of "#AB")
           (nm3_callback (mkClock 1000000 1000 999)
              (set_extint true module_init))))))) /\
    timestamp_millis p' =
      pyb_millis (latest (edges (final
        (copy_timestamps (env_edge 0 (mkClock 2000000 2000 1000)) (packet_of "#AB")
           (nm3_callback (mkClock 1000000 1000 999)
              (set_extint true module_init)))))) /\
    timestamp_micros p' =
      pyb_micros (latest (edges (final
        (copy_timestamps (env_edge 0 (mkClock 2000000 2000 1000)) (packet_of "#AB")
           (nm3_callback (mkClock 1000000 1000 999)
              (set_extint true module_init)))))).
Proof.
  apply (proj2 (proj2 (proj2
           (C1_wake_latch (env_edge 0 (mkClock 2000000 2000 1000)) 0 0 None)))).
  - reflexivity.
  - right. split; reflexivity.
Defined.

(** The same copy, spelled out. *)
Example copy_after_second_edge :
  res (copy_timestamps (env_edge 0 (mkClock 2000000 2000 1000)) (packet_of "#AB")
         (nm3_callback (mkClock 1000000 1000 999) (set_extint true module_init)))
    = Ret (mkPacket (Some "#AB") (localtime 1000) 2000 2000000) /\
  edges (final
    (copy_timestamps (env_edge 0 (mkClock 2000000 2000 1000)) (packet_of "#AB")
       (nm3_callback (mkClock 1000000 1000 999) (set_extint true module_init))))
    = [mkClock 1000000 1000 999; mkClock 2000000 2000 1000].
Proof. split; reflexivity. Qed.

(** * Further properties of the dispatcher *)

Section Alive.

Variable env : Env.

(** The four ways [send_usmart_alive_message] runs with a modem. *)
Lemma alive_message_cases (w : Machine) :
  (exists e,
     raises env (step w) = Some e /\
     send_usmart_alive_message env (Some nm3_modem) w =
     mkResult (Raise e) (nxt env w) [GetAddress]) \/
  (exists e,
     raises env (step w) = None /\ raises env (S (S (step w))) = Some e /\
     send_usmart_alive_message env (Some nm3_modem) w =
     mkResult (Raise e) (nxt env (nxt env (nxt env w)))
       [GetAddress; SleepMs 20; GetBatteryVoltage]) \/
  (exists e,
     raises env (step w) = None /\ raises env (S (S (step w))) = None /\
     raises env (S (S (S (S (step w))))) = Some e /\
     send_usmart_alive_message env (Some nm3_modem) w =
     mkResult (Raise e) (nxt env (nxt env (nxt env (nxt env (nxt env w)))))
       [GetAddress; SleepMs 20; GetBatteryVoltage; SleepMs 20;
        SendBroadcast (alive_string (modem_address env (step w))
                         (modem_voltage env (S (S (step w)))))]) \/
  (raises env (step w) = None /\ raises env (S (S (step w))) = None /\
   raises env (S (S (S (S (step w))))) = None /\
   send_usmart_alive_message env (Some nm3_modem) w =
   mkResult (Ret tt) (nxt env (nxt env (nxt env (nxt env (nxt env w)))))
     [GetAddress; SleepMs 20; GetBatteryVoltage; SleepMs 20;
      SendBroadcast (alive_string (modem_address env (step w))
                       (modem_voltage env (S (S (step w)))))]).
Proof.
  unfold send_usmart_alive_message. unfold_prims.
  rewrite run_query.
  destruct (raises env (step w)) as [e|] eqn:E0.
  { left. exists e. split; reflexivity. }
  right. rewrite run_call, run_query, !nxt_step.
  destruct (raises env (S (S (step w)))) as [e|] eqn:E2.
  { left. exists e. repeat split. }
  right. rewrite run_call, collab_alone, !nxt_step.
  destruct (raises env (S (S (S (S (step w)))))) as [e|] eqn:E4.
  { left. exists e. repeat split. }
  right. repeat split.
Qed.

End Alive.

(** Without a modem nothing is done.  With one, the alive message is
    broadcast only after both queries succeeded, with the address and the
    voltage they returned; a failing query ends the function before any
    broadcast. *)
Theorem alive_message_broadcast (env : Env) (w : Machine) :
  send_usmart_alive_message env None w = mkResult (Ret tt) w [] /\
  (count is_broadcast (trace (send_usmart_alive_message env (Some nm3_modem) w))
   <= 1)%nat /\
  (res (send_usmart_alive_message env (Some nm3_modem) w) = Ret tt ->
   trace (send_usmart_alive_message env (Some nm3_modem) w) =
   [GetAddress; SleepMs 20; GetBatteryVoltage; SleepMs 20;
    SendBroadcast (alive_string (modem_address env (step w))
                     (modem_voltage env (S (S (step w)))))]) /\
  (forall e,
     raises env (step w) = Some e \/
     (raises env (step w) = None /\ raises env (S (S (step w))) = Some e) ->
     res (send_usmart_alive_message env (Some nm3_modem) w) = Raise e /\
     count is_broadcast (trace (send_usmart_alive_message env (Some nm3_modem) w))
     = 0%nat).
Proof.
  split; [reflexivity|].
  destruct (alive_message_cases env w)
    as [(e & E0 & R)|[(e & E0 & E2 & R)|[(e & E0 & E2 & E4 & R)|(E0 & E2 & E4 & R)]]];
    rewrite R; cbn [res trace]; (split; [unfold count; simpl; lia|]);
    (split; [try discriminate; intros _; reflexivity|]);
    intros e' [H|[H0 H2]]; try congruence.
  - split; [congruence|reflexivity].
  - split; [congruence|reflexivity].
Qed.

Lemma alive_message_broadcast_witness :
  res (send_usmart_alive_message env_quiet (Some nm3_modem) module_init) = Ret tt /\
  trace (send_usmart_alive_message env_quiet (Some nm3_modem) module_init) =
  [GetAddress; SleepMs 20; GetBatteryVoltage; SleepMs 20;
   SendBroadcast "UA007B3.30VREV:2021-07-09T17:38:00"].
Proof.
  split; [reflexivity|].
  apply (proj1 (proj2 (proj2 (alive_message_broadcast env_quiet module_init)))).
  reflexivity.
Defined.

(** A message whose payload is exactly "USPNG" is logged and answered with
    the alive message: one broadcast when no call raises, never more; the
    device is not reset. *)
Theorem ping_sends_alive (env : Env) (p : MessagePacket) (w : Machine) :
  packet_payload p = Some "USPNG" ->
  dispatch env p w =
    after [Jot "PNG message received."]
      (send_usmart_alive_message env (Some nm3_modem) (nxt env w)) /\
  (count is_broadcast (trace (dispatch env p w)) <= 1)%nat /\
  res (dispatch env p w) <> DeviceReset /\
  ((forall n, raises env n = None) ->
   res (dispatch env p w) = Ret tt /\
   trace (dispatch env p w) =
   [Jot "PNG message received.";
    GetAddress; SleepMs 20; GetBatteryVoltage; SleepMs 20;
    SendBroadcast (alive_string (modem_address env (S (step w)))
                     (modem_voltage env (S (S (S (step w))))))]).
Proof.
  intros H.
  assert (E : dispatch env p w =
              after [Jot "PNG message received."]
                (send_usmart_alive_message env (Some nm3_modem) (nxt env w))).
  { rewrite dispatch_is_first_match. unfold dispatch_first_match.
    cbn [matches]. rewrite !(payload_is_lit _ _ _ H). decide_tests.
    unfold jot. now rewrite run_call. }
  split; [exact E|]. rewrite E.
  rewrite after_res, after_trace.
  destruct (alive_message_cases env (nxt env w))
    as [(e & E0 & R)|[(e & E0 & E2 & R)|[(e & E0 & E2 & E4 & R)|(E0 & E2 & E4 & R)]]];
    rewrite R; cbn [res trace]; rewrite nxt_step in *;
    (split; [unfold count; simpl; lia|]);
    (split; [discriminate|]); intros Q.
  - rewrite Q in E0. discriminate.
  - rewrite Q in E2. discriminate.
  - rewrite Q in E4. discriminate.
  - split; reflexivity.
Qed.

Lemma ping_sends_alive_witness :
  trace (dispatch env_quiet (packet_of "USPNG") module_init) =
  [Jot "PNG message received.";
   GetAddress; SleepMs 20; GetBatteryVoltage; SleepMs 20;
   SendBroadcast "UA007B3.30VREV:2021-07-09T17:38:00"].
Proof.
  apply (proj2 (proj2 (proj2 (ping_sends_alive env_quiet (packet_of "USPNG")
                                module_init eq_refl)))).
  reflexivity.
Defined.

Lemma is_network_packet_iff (p : MessagePacket) :
  is_network_packet p = true <->
  exists s, packet_payload p = Some (String "#"%char s) /\
            (2 <= String.length s)%nat.
Proof.
  unfold is_network_packet, truthy_str.
  destruct (packet_payload p) as [[|c s]|]; simpl.
  - split; [discriminate|]. intros (s & H & _). discriminate H.
  - assert (S0 : substring 0 0 s = ""%string) by (destruct s; reflexivity).
    rewrite S0. simpl.
    destruct (Ascii.eqb c "#") eqn:C.
    + apply Ascii.eqb_eq in C. subst c. rewrite andb_true_r. split.
      * intros L. apply Z.ltb_lt in L. exists s. split; [reflexivity|lia].
      * intros (s' & H & L). injection H as ->. apply Z.ltb_lt. lia.
    + rewrite andb_false_r. split; [discriminate|].
      intros (s' & H & _). injection H as -> _.
      rewrite Ascii.eqb_refl in C. discriminate C.
  - split; [discriminate|]. intros (s & H & _). discriminate H.
Qed.

Lemma matches_none_but (p : MessagePacket) (c d : category) :
  matches c p = true -> c <> d -> matches d p = false.
Proof.
  intros Hc N. destruct (matches d p) eqn:Hd; [|reflexivity].
  exfalso. apply N. exact (matches_exclusive p c d Hc Hd).
Qed.

(** A payload of at least three bytes that starts with '#' is handed to the
    network module as it is, between two garbage collections; the second
    collection is skipped when the network module raises.  A shorter payload,
    or one with another first byte, is not a network packet. *)
Theorem network_packet_forwarded (env : Env) (p : MessagePacket) (w : Machine) :
  (is_network_packet p = true <->
   exists s, packet_payload p = Some (String "#"%char s) /\
             (2 <= String.length s)%nat) /\
  (is_network_packet p = true ->
   trace (dispatch env p w) =
     GcCollect :: HandlePacket p ::
     match raises env (S (step w)) with Some _ => [] | None => [GcCollect] end /\
   res (dispatch env p w) =
     match raises env (S (step w)) with Some e => Raise e | None => Ret tt end).
Proof.
  split; [apply is_network_packet_iff|].
  intros H. rewrite dispatch_is_first_match. unfold dispatch_first_match.
  assert (N : matches CatNetwork p = true) by exact H.
  rewrite (matches_none_but p _ CatReset N), (matches_none_but p _ CatOta N),
    (matches_none_but p _ CatPing N), (matches_none_but p _ CatListModules N), N
    by discriminate.
  rewrite run_call, run_collab, nxt_step.
  destruct (raises env (S (step w))); split; reflexivity.
Qed.

Lemma network_packet_forwarded_witness :
  trace (dispatch env_quiet (packet_of "#AB") module_init) =
    [GcCollect; HandlePacket (packet_of "#AB"); GcCollect] /\
  res (dispatch env_quiet (packet_of "#AB") module_init) = Ret tt.
Proof.
  apply (proj2 (network_packet_forwarded env_quiet (packet_of "#AB") module_init)).
  reflexivity.
Defined.

(** A packet that passes none of the five tests is dropped without any
    action: no event, no exception, the globals untouched.  This is the case
    of a missing or empty payload and of every payload of at most two bytes. *)
Theorem unrecognized_payload_ignored (env : Env) (p : MessagePacket) (w : Machine) :
  ((forall c, matches c p = false) ->
   dispatch env p w = mkResult (Ret tt) w []) /\
  (truthy_str (packet_payload p) = false -> forall c, matches c p = false) /\
  (forall s, packet_payload p = Some s -> (String.length s <= 2)%nat ->
             forall c, matches c p = false).
Proof.
  split; [|split].
  - intros H. rewrite dispatch_is_first_match. unfold dispatch_first_match.
    now rewrite !H.
  - intros T [| | | |]; simpl; unfold payload_is, is_network_packet;
      rewrite T; reflexivity.
  - intros s H L c.
    destruct (matches c p) eqn:M; [|reflexivity]. exfalso.
    destruct c; simpl in M;
      try (apply payload_is_eq in M; rewrite H in M; injection M as ->;
           simpl in L; lia).
    apply is_network_packet_iff in M. destruct M as (s' & M & L').
    rewrite H in M. injection M as ->. simpl in L. lia.
Qed.

Lemma unrecognized_payload_ignored_witness :
  dispatch env_quiet (mkPacket None (localtime 0) 0 0) module_init =
    mkResult (Ret tt) module_init [] /\
  dispatch env_quiet (packet_of "#A") module_init =
    mkResult (Ret tt) module_init [].
Proof.
  split.
  - apply (proj1 (unrecognized_payload_ignored env_quiet _ module_init)).
    apply (proj1 (proj2 (unrecognized_payload_ignored env_quiet
                           (mkPacket None (localtime 0) 0 0) module_init))).
    reflexivity.
  - apply (proj1 (unrecognized_payload_ignored env_quiet _ module_init)).
    apply (proj2 (proj2 (unrecognized_payload_ignored env_quiet
                           (packet_of "#A") module_init)) "#A"%string).
    + reflexivity.
    + simpl. lia.
Defined.

(** * The formatted address *)

Lemma zero_pad_length (width : nat) (s : string) :
  String.length (zero_pad width s) = Nat.max width (String.length s).
Proof.
  unfold zero_pad.
  assert (L : forall k t, String.length (string_of_list_ascii (repeat "0"%char k) ++ t)
                        = (k + String.length t)%nat).
  { induction k as [|k IH]; intros t; simpl; [reflexivity|]. now rewrite IH. }
  rewrite L. lia.
Qed.

Lemma read_zeros (k : nat) (s : string) :
  NilEmpty.uint_of_string (string_of_list_ascii (repeat "0"%char k) ++ s) =
  option_map (Nat.iter k Decimal.D0) (NilEmpty.uint_of_string s).
Proof.
  induction k as [|k IH]; simpl.
  - now destruct (NilEmpty.uint_of_string s).
  - rewrite IH. now destruct (NilEmpty.uint_of_string s).
Qed.

Lemma of_uint_zeros (k : nat) (d : Decimal.uint) :
  Z.of_uint (Nat.iter k Decimal.D0 d) = Z.of_uint d.
Proof. induction k as [|k IH]; simpl; [reflexivity|exact IH]. Qed.

Lemma to_uint_not_nil (m : N) : N.to_uint m <> Decimal.Nil.
Proof.
  destruct m; simpl; [discriminate|].
  apply DecimalPos.Unsigned.to_uint_nonnil.
Qed.

Lemma read_decimal (n : Z) :
  0 <= n ->
  NilEmpty.uint_of_string (decimal n) = Some (N.to_uint (Z.to_N n)) /\
  decimal n <> ""%string.
Proof.
  intros H. unfold decimal.
  pose proof (NilZero.usu _ (to_uint_not_nil (Z.to_N n))) as U.
  destruct (NilZero.string_of_uint (N.to_uint (Z.to_N n))) eqn:E.
  - discriminate U.
  - split; [exact U|discriminate].
Qed.

Lemma decimal_short (n : Z) :
  0 <= n < 1000 -> (String.length (decimal n) <= 3)%nat.
Proof.
  intros H.
  assert (A : forallb (fun k => Nat.leb (String.length (decimal (Z.of_nat k))) 3)
                (seq 0 1000) = true) by (vm_compute; reflexivity).
  rewrite forallb_forall in A.
  specialize (A (Z.to_nat n)). rewrite Z2Nat.id in A by lia.
  apply Nat.leb_le. apply A. apply in_seq. lia.
Qed.

(** ["{:03d}".format(n)] for a non-negative [n] reads back as [n] and has at
    least three characters, exactly three up to 999 (so that the address
    sits at a fixed place in the alive and module messages); a negative [n]
    starts with the sign. *)
Theorem format_03d_reads_back (n : Z) :
  (0 <= n -> read_int (format_03d n) = Some n) /\
  (0 <= n -> (3 <= String.length (format_03d n))%nat) /\
  (0 <= n < 1000 -> String.length (format_03d n) = 3%nat) /\
  (n < 0 -> exists s, format_03d n = String "-"%char s).
Proof.
  unfold format_03d. repeat split.
  - intros H. destruct (Z.ltb_spec n 0) as [L|_]; [lia|].
    destruct (read_decimal n H) as [U N0].
    unfold read_int, zero_pad.
    assert (E : NilZero.uint_of_string
                  (string_of_list_ascii
                     (repeat "0"%char (3 - String.length (decimal n))) ++ decimal n)
                = NilEmpty.uint_of_string
                    (string_of_list_ascii
                       (repeat "0"%char (3 - String.length (decimal n))) ++ decimal n)).
    { destruct (3 - String.length (decimal n))%nat; simpl; [|reflexivity].
      destruct (decimal n); [congruence|reflexivity]. }
    rewrite E, read_zeros, U. simpl. rewrite of_uint_zeros.
    unfold Z.of_uint.
    change (Pos.of_uint (N.to_uint (Z.to_N n))) with (N.of_uint (N.to_uint (Z.to_N n))).
    rewrite DecimalN.Unsigned.of_to. f_equal. lia.
  - intros H. destruct (Z.ltb_spec n 0) as [L|_]; [lia|].
    rewrite zero_pad_length. lia.
  - intros H. destruct (Z.ltb_spec n 0) as [L|_]; [lia|].
    rewrite zero_pad_length. pose proof (decimal_short n H). lia.
  - intros H. destruct (Z.ltb_spec n 0) as [_|L]; [|lia].
    eexists. reflexivity.
Qed.

Lemma format_03d_reads_back_witness :
  read_int (format_03d 7) = Some 7 /\
  String.length (format_03d 7) = 3%nat /\
  exists s, format_03d (-7) = String "-"%char s.
Proof.
  split; [|split].
  - apply (proj1 (format_03d_reads_back 7)). lia.
  - apply (proj1 (proj2 (proj2 (format_03d_reads_back 7)))). lia.
  - apply (proj2 (proj2 (proj2 (format_03d_reads_back (-7))))). lia.
Defined.

(** * The latch has one slot *)

Lemma handlers_edges (l : list Clock) (w : Machine) :
  edges (fold_left (fun w' line => nm3_callback line w') l w) = edges w ++ l.
Proof.
  revert w. induction l as [|c l IH]; intros w; simpl.
  - now rewrite app_nil_r.
  - rewrite IH. simpl. now rewrite <- app_assoc.
Qed.

Lemma handlers_frame (l : list Clock) (w : Machine) :
  _env_variables (fold_left (fun w' line => nm3_callback line w') l w)
    = _env_variables w /\
  nm3_extint (fold_left (fun w' line => nm3_callback line w') l w) = nm3_extint w /\
  step (fold_left (fun w' line => nm3_callback line w') l w) = step w.
Proof.
  revert w. induction l as [|c l IH]; intros w; simpl; [auto|].
  destruct (IH (nm3_callback c w)) as (A & B & C). auto.
Qed.

(** Edges that arrive before the handler is registered are ignored.  Once it
    is registered, of several edges between two steps of the main thread the
    last one wins: the globals hold its three readings, the flag is set
    (once, however many edges there were), and nothing else changes. *)
Theorem last_edge_wins (env : Env) (w : Machine) :
  (nm3_extint w = false -> service env w = w) /\
  (nm3_extint w = true ->
   forall l c, irq env (step w) = l ++ [c] ->
     latch (service env w) = c /\
     _nm3_callback_flag (service env w) = true /\
     edges (service env w) = edges w ++ l ++ [c] /\
     _env_variables (service env w) = _env_variables w /\
     nm3_extint (service env w) = true /\
     step (service env w) = step w).
Proof.
  split.
  - intros H. apply service_quiet. now left.
  - intros A l c E. unfold service. rewrite A, E.
    destruct (handlers_frame (l ++ [c]) w) as (F1 & F2 & F3).
    rewrite handlers_edges, F1, F2, F3.
    repeat split; try assumption.
    + rewrite fold_left_app. simpl. unfold latch. simpl. now destruct c.
    + apply handlers_set_flag. right. now destruct l.
Qed.

Lemma last_edge_wins_witness :
  latch (service
           (mkEnv (fun _ => [mkClock 1 1 1; mkClock 2000000 2000 200])
              WDT_RESET (fun _ => 0) (fun _ => None) (fun _ => None) (fun _ => 7)
              (fun _ => "3.30")
              (fun _ => false) (fun _ => mkPacket None (localtime 0) 0 0))
           (set_extint true module_init))
  = mkClock 2000000 2000 200.
Proof.
  apply (proj2 (last_edge_wins _ (set_extint true module_init)) eq_refl
           [mkClock 1 1 1] (mkClock 2000000 2000 200)).
  reflexivity.
Defined.

(** * What surrounds a sleep and a clear of the flag *)

Lemma snoc_split {A : Type} (h pre post : list A) (e x : A) :
  h ++ [e] = pre ++ x :: post ->
  (post = [] /\ h = pre /\ e = x) \/
  (exists post', post = post' ++ [e] /\ h = pre ++ x :: post').
Proof.
  intros E. destruct (exists_last (l := x :: post)) as (l' & y & L); [discriminate|].
  rewrite L, app_assoc in E.
  apply app_inj_tail in E. destruct E as [E1 E2]. subst y.
  destruct post as [|z post].
  - left. destruct l' as [|a l'].
    + simpl in L. injection L as ->. rewrite app_nil_r in E1. auto.
    + simpl in L. injection L as _ L. destruct l'; discriminate L.
  - right. destruct l' as [|a l']; [discriminate L|].
    simpl in L. injection L as -> L.
    exists l'. split; [exact L|]. exact E1.
Qed.

Lemma sleeps_after_feed_snoc (e : event) (h : list event) :
  e <> LightSleep -> sleeps_after_feed h -> sleeps_after_feed (h ++ [e]).
Proof.
  intros N H pre post E.
  destruct (snoc_split _ _ _ _ _ E) as [(_ & _ & X)|(post' & _ & X)].
  - congruence.
  - exact (H pre post' X).
Qed.

Lemma sleeps_after_feed_block (h : list event) :
  sleeps_after_feed h -> sleeps_after_feed (h ++ [WdtFeed; LightSleep]).
Proof.
  intros H pre post E.
  change (h ++ [WdtFeed; LightSleep]) with (h ++ [WdtFeed] ++ [LightSleep]) in E.
  rewrite app_assoc in E.
  destruct (snoc_split _ _ _ _ _ E) as [(_ & X & _)|(post' & _ & X)].
  - exists h. now rewrite X.
  - destruct (snoc_split _ _ _ _ _ X) as [(_ & _ & Y)|(post'' & _ & Y)].
    + discriminate Y.
    + exact (H pre post'' Y).
Qed.

Lemma clears_then_polls_snoc (e : event) (h : list event) :
  (forall b, e <> WriteFlag b) -> clears_then_polls h -> clears_then_polls (h ++ [e]).
Proof.
  intros N H pre b post E.
  destruct (snoc_split _ _ _ _ _ E) as [(_ & _ & X)|(post' & P & X)].
  - exfalso. exact (N b X).
  - destruct (H pre b post' X) as (q & ->).
    exists (q ++ [e]). rewrite P. reflexivity.
Qed.

Lemma clears_then_polls_block (b : bool) (h : list event) :
  clears_then_polls h -> clears_then_polls (h ++ [WriteFlag b; PollReceiver]).
Proof.
  intros H pre b' post E.
  change (h ++ [WriteFlag b; PollReceiver])
    with (h ++ [WriteFlag b] ++ [PollReceiver]) in E.
  rewrite app_assoc in E.
  destruct (snoc_split _ _ _ _ _ E) as [(_ & _ & X)|(post' & P & X)].
  - discriminate X.
  - destruct (snoc_split _ _ _ _ _ X) as [(Q & _ & _)|(post'' & Q & Y)].
    + subst post'. exists []. exact P.
    + destruct (H pre b' post'' Y) as (q & ->).
      exists (q ++ [WriteFlag b; PollReceiver]).
      rewrite P, Q. simpl. now rewrite <- app_assoc.
Qed.

Section Surroundings.

Variable env : Env.

Lemma inv_feed_and_sleep :
  inv sleeps_fed (bind (wdt_feed env) (fun _ => call env LightSleep)).
Proof.
  intros h w H. unfold sleeps_fed in *. unfold_prims. rewrite run_call.
  traces. rewrite call_alone. cbn [trace].
  now apply sleeps_after_feed_block.
Qed.

Lemma sleeps_fed_step (e : event) (h : list event) (w w' : Machine) :
  e <> LightSleep -> sleeps_fed h w -> sleeps_fed (h ++ [e]) w'.
Proof. intros N H. now apply sleeps_after_feed_snoc. Qed.

Lemma inv_clear_and_poll {B : Type} (b : bool) (k : unit -> M B) :
  (forall a, inv clears_polled (k a)) ->
  inv clears_polled
    (bind (write_flag env b) (fun _ => bind (collab env PollReceiver) k)).
Proof.
  intros K h w H. unfold clears_polled in *.
  rewrite run_write_flag, run_collab.
  destruct (raises env _).
  - cbn [after trace final app].
    now apply clears_then_polls_block.
  - rewrite after_after, after_trace, app_assoc.
    apply (K tt). now apply clears_then_polls_block.
Qed.

Lemma clears_polled_step (e : event) (h : list event) (w w' : Machine) :
  (forall b, e <> WriteFlag b) -> clears_polled h w -> clears_polled (h ++ [e]) w'.
Proof. intros N H. now apply clears_then_polls_snoc. Qed.

End Surroundings.

(** The feed and the lightsleep of lines 342-346, handled as one block by
    the lemma [lem]. *)
Ltac at_feed_and_sleep lem :=
  idtac;
  lazymatch goal with
  | |- inv _ (bind (wdt_feed _) (fun _ => call _ LightSleep)) => apply lem
  end.

(** A write of the flag and what follows it, handled by the lemma [lem]. *)
Ltac at_flag_write lem :=
  idtac;
  lazymatch goal with
  | |- inv _ (bind (write_flag _ _) _) => apply lem; intros
  end.

Lemma run_mainloop_sleeps_fed (env : Env) (iterations fuel : nat) :
  inv sleeps_fed (run_mainloop env iterations fuel).
Proof.
  inv_walk ltac:(at_feed_and_sleep inv_feed_and_sleep)
           ltac:(unfold keeps; intros; eapply sleeps_fed_step;
                 [discriminate|eassumption]).
Qed.

Lemma run_mainloop_clears_polled (env : Env) (iterations fuel : nat) :
  inv clears_polled (run_mainloop env iterations fuel).
Proof.
  inv_walk ltac:(at_flag_write inv_clear_and_poll)
           ltac:(unfold keeps; intros; eapply clears_polled_step;
                 [discriminate|eassumption]).
Qed.

(** On every run, the node goes to lightsleep only right after feeding the
    watchdog: the event before a lightsleep is always a feed. *)
Theorem lightsleep_only_after_feed (env : Env) (iterations fuel : nat) (w : Machine)
    (pre post : list event) :
  trace (run_mainloop env iterations fuel w) = pre ++ LightSleep :: post ->
  exists p, pre = p ++ [WdtFeed].
Proof.
  assert (H : sleeps_fed (trace (run_mainloop env iterations fuel w))
                (final (run_mainloop env iterations fuel w))).
  { apply inv_run; [apply run_mainloop_sleeps_fed|].
    intros pre' post' E. destruct pre'; discriminate E. }
  exact (H pre post).
Qed.

Lemma lightsleep_only_after_feed_witness :
  exists p, firstn 61 (trace (run_mainloop env_quiet 1 1 module_init)) = p ++ [WdtFeed].
Proof.
  apply (lightsleep_only_after_feed env_quiet 1 1 module_init _
           (skipn 62 (trace (run_mainloop env_quiet 1 1 module_init)))).
  vm_compute. reflexivity.
Defined.

(** On every run, the flag is never cleared without the receiver being
    polled right after: an edge whose flag is wiped by the clear is still
    followed by a poll in the same iteration. *)
Theorem flag_clear_then_poll (env : Env) (iterations fuel : nat) (w : Machine)
    (pre post : list event) (b : bool) :
  trace (run_mainloop env iterations fuel w) = pre ++ WriteFlag b :: post ->
  exists q, post = PollReceiver :: q.
Proof.
  assert (H : clears_polled (trace (run_mainloop env iterations fuel w))
                (final (run_mainloop env iterations fuel w))).
  { apply inv_run; [apply run_mainloop_clears_polled|].
    intros pre' b' post' E. destruct pre'; discriminate E. }
  exact (H pre b post).
Qed.

Lemma flag_clear_then_poll_witness :
  exists q, skipn 48 (trace (run_mainloop (env_command "USMRT") 3 3 module_init))
            = PollReceiver :: q.
Proof.
  apply (flag_clear_then_poll (env_command "USMRT") 3 3 module_init
           (firstn 47 (trace (run_mainloop (env_command "USMRT") 3 3 module_init)))
           _ false).
  vm_compute. reflexivity.
Defined.

(** * Resets *)



Section Resets.

Variable env : Env.





End Resets.





(** * The modem and its power *)

Lemma prefix_before_test (P : event -> bool) (x : event)
    (head tail pre post : list event) :
  head ++ tail = pre ++ x :: post ->
  Forall (fun e => P e = false) head -> P x = true ->
  exists mid, pre = head ++ mid /\ tail = mid ++ x :: post.
Proof.
  revert pre. induction head as [|h head IH]; intros pre E N X.
  - exists pre. auto.
  - inversion N as [|? ? Hh Ht]; subst.
    destruct pre as [|p pre]; simpl in E.
    + injection E as E1 E2. congruence.
    + injection E as E1 E2. subst p.
      destruct (IH pre E2 Ht X) as (mid & -> & T).
      exists mid. auto.
Qed.

Lemma startup_rails_no_modem_io (env : Env) :
  inv (all_events (fun e => modem_io e = false)) (startup_rails env).
Proof. all_events_walk. Qed.

(** On every run, nothing is asked of the modem and nothing is sent through
    it before it was powered on. *)
Theorem modem_used_only_after_power_on (env : Env) (iterations fuel : nat)
    (w : Machine) (pre post : list event) (e : event) :
  trace (run_mainloop env iterations fuel w) = pre ++ e :: post ->
  modem_io e = true ->
  In EnableNm3 pre.
Proof.
  unfold run_mainloop.
  pose proof (all_events_run _ _ w (startup_rails_no_modem_io env)) as N.
  destruct (bind_cases (startup_rails env)
              (fun _ => bind (power_on_nm3 env)
                          (fun _ => bind (announce env)
                                      (fun _ => mainloop env iterations fuel))) w)
    as [(a & R & B)|(_ & T & _)].
  - rewrite B, after_trace.
    destruct (power_on_nm3_runs env
                (fun _ => bind (announce env) (fun _ => mainloop env iterations fuel))
                (final (startup_rails env w))) as [(x & w' & E)|(w' & E)];
      rewrite E.
    + cbn [trace]. revert N. generalize (trace (startup_rails env w)).
      intros t1 N E1 M.
      destruct (prefix_before_test modem_io e t1 _ pre post E1 N M) as (mid & _ & T).
      exfalso.
      assert (I : In e [WdtFeed; Jot "Powering on NM3"; SleepMs 10000; EnableNm3])
        by (rewrite T; apply in_or_app; right; apply in_eq).
      simpl in I. destruct I as [I|[I|[I|[I|[]]]]]; subst e; discriminate M.
    + rewrite after_trace. revert N. generalize (trace (startup_rails env w)).
      match goal with |- context [trace ?r] => generalize (trace r) end.
      intros t3 t1 N E1 M.
      rewrite app_assoc in E1.
      destruct (prefix_before_test modem_io e
                  (t1 ++ [WdtFeed; Jot "Powering on NM3"; SleepMs 10000; EnableNm3;
                          SleepMs 10000; WdtFeed]) t3 pre post E1) as (mid & -> & _).
      * apply Forall_app. split; [exact N|]. repeat constructor.
      * exact M.
      * apply in_or_app. left. apply in_or_app. right. simpl. tauto.
  - rewrite T. revert N. generalize (trace (startup_rails env w)).
    intros t1 N E1 M. exfalso. rewrite Forall_forall in N.
    assert (I : In e t1) by (rewrite E1; apply in_or_app; right; apply in_eq).
    rewrite (N _ I) in M. discriminate M.
Qed.

Lemma modem_used_only_after_power_on_witness :
  In EnableNm3 (firstn 24 (trace (run_mainloop env_quiet 0 0 module_init))).
Proof.
  apply (modem_used_only_after_power_on env_quiet 0 0 module_init _
           (skipn 25 (trace (run_mainloop env_quiet 0 0 module_init))) GetAddress).
  - vm_compute. reflexivity.
  - reflexivity.
Defined.

Lemma rail_after_quiet (t : list event) (on : bool) :
  Forall (fun e => is_rail e = false) t -> rail_after on t = on.
Proof.
  unfold rail_after. revert on. induction t as [|e t IH]; intros on H; simpl.
  - reflexivity.
  - inversion H as [|? ? He Ht]; subst. rewrite (IH _ Ht).
    destruct e; try reflexivity. discriminate He.
Qed.

Lemma rail_after_app (a b : list event) (on : bool) :
  rail_after on (a ++ b) = rail_after (rail_after on a) b.
Proof. unfold rail_after. apply fold_left_app. Qed.

Section Rail.

Variable env : Env.

Lemma poll_stage_no_rail (fuel : nat) :
  inv (all_events (fun e => is_rail e = false)) (poll_stage env fuel).
Proof. all_events_walk. Qed.

Lemma sleep_stage_no_modem_io (fuel : nat) :
  inv (all_events (fun e => modem_io e = false)) (sleep_stage env fuel).
Proof. all_events_walk. Qed.

Lemma sleep_until_flag_no_rail (fuel : nat) :
  inv (all_events (fun e => is_rail e = false)) (sleep_until_flag env fuel).
Proof. all_events_walk. Qed.

(** An iteration: the feed, the rail enable, the events of the first [if],
    which leave the rail alone, and those of the second, which leave the
    modem alone. *)
Lemma operating_mode_parts (fuel : nat) (w : Machine) :
  exists tp ts,
    trace (operating_mode env fuel w) = WdtFeed :: En3V3 true :: tp ++ ts /\
    Forall (fun e => is_rail e = false) tp /\
    Forall (fun e => modem_io e = false) ts /\
    (ts = [] \/
     exists w', ts = trace (sleep_stage env fuel w') /\
                res (operating_mode env fuel w) = res (sleep_stage env fuel w')).
Proof.
  unfold operating_mode. unfold_prims. run.
  pose proof (all_events_run _ _ (nxt env (nxt env w)) (poll_stage_no_rail fuel)) as N.
  destruct (bind_cases (poll_stage env fuel) (fun _ => sleep_stage env fuel)
              (nxt env (nxt env w))) as [(a & R & E)|(_ & T & _)].
  - exists (trace (poll_stage env fuel (nxt env (nxt env w)))).
    exists (trace (sleep_stage env fuel
                     (final (poll_stage env fuel (nxt env (nxt env w)))))).
    rewrite !after_res. traces. rewrite E, after_trace, after_res.
    split; [reflexivity|]. split; [exact N|]. split.
    + apply all_events_run. apply sleep_stage_no_modem_io.
    + right. eexists. split; reflexivity.
  - exists (trace (poll_stage env fuel (nxt env (nxt env w)))), [].
    traces. rewrite T, app_nil_r.
    split; [reflexivity|]. split; [exact N|]. split; [constructor|now left].
Qed.

Lemma wake_up_rail (w : Machine) (on : bool) :
  rail_after on (trace (wake_up env w)) = true.
Proof.
  unfold wake_up. unfold_prims. run. rewrite run_collab.
  destruct (raises env _); reflexivity.
Qed.

Lemma sleep_and_wake_rail (fuel : nat) (w : Machine) (on : bool) :
  res (bind (sleep_until_flag env fuel) (fun _ => wake_up env) w) <> OutOfFuel ->
  rail_after on (trace (bind (sleep_until_flag env fuel) (fun _ => wake_up env) w))
  = true.
Proof.
  pose proof (all_events_run _ _ w (sleep_until_flag_no_rail fuel)) as N.
  unfold bind.
  destruct (sleep_until_flag_shape env fuel w) as (k & _ & [(R & _ & _)|(R & _ & _)]);
    rewrite R.
  - intros _. rewrite after_trace, rail_after_app. apply wake_up_rail.
  - intros H. now elim H.
Qed.

(** Unless it is still asleep when the budget ends, the second [if] leaves
    the rail on. *)
Lemma sleep_stage_rail (fuel : nat) (w : Machine) :
  res (sleep_stage env fuel w) <> OutOfFuel ->
  rail_after true (trace (sleep_stage env fuel w)) = true.
Proof.
  unfold sleep_stage, too_long_since_synch; unfold_prims; run.
  destruct (_nm3_callback_flag (nxt env w)) eqn:F1; cbn [negb]; cbv iota; run.
  - intros _. reflexivity.
  - destruct (_nm3_callback_seconds (nxt env (nxt env (nxt env w))) + 30
              <? wall_clock env (step (nxt env w))) eqn:C; run.
    + destruct (_nm3_callback_flag (nxt env (nxt env (nxt env (nxt env w)))))
        eqn:F2; cbn [negb]; cbv iota.
      * run. rewrite !after_res. traces. intros H.
        apply (sleep_and_wake_rail fuel _ true) in H. revert H.
        match goal with |- context [trace ?r] => generalize (trace r) end.
        intros t H. exact H.
      * unfold power_down. unfold_prims. run. rewrite run_collab.
        destruct (raises env _); [intros _; reflexivity|].
        run. rewrite !after_res. traces. intros H.
        apply (sleep_and_wake_rail fuel _ false) in H. revert H.
        match goal with |- context [trace ?r] => generalize (trace r) end.
        intros t H. exact H.
    + intros _. reflexivity.
Qed.

End Rail.

(** In an iteration the modem is only talked to while the logic rail is on:
    whatever the rail was before, it is enabled at the top of the iteration
    and stays on until the last traffic with the modem. *)
Theorem modem_io_with_rail_on (env : Env) (fuel : nat) (w : Machine)
    (pre post : list event) (e : event) (on : bool) :
  trace (operating_mode env fuel w) = pre ++ e :: post ->
  modem_io e = true ->
  rail_after on pre = true.
Proof.
  destruct (operating_mode_parts env fuel w) as (tp & ts & -> & Np & Ns & _).
  intros E M.
  destruct pre as [|x [|y pre]]; simpl in E.
  - injection E as <- _. discriminate M.
  - injection E as _ <- _. discriminate M.
  - injection E as <- <- E.
    destruct (app_eq_app _ _ _ _ E) as (l & [[E1 E2]|[E1 E2]]).
    + destruct l as [|z l].
      * simpl in E2. rewrite app_nil_r in E1. subst tp.
        exfalso. subst ts. inversion Ns as [|? ? X _]. rewrite M in X. discriminate X.
      * simpl in E2. injection E2 as <- E2. subst tp.
        apply Forall_app in Np. destruct Np as [Np _].
        simpl. fold (rail_after true pre). now apply rail_after_quiet.
    + exfalso. subst ts. apply Forall_app in Ns. destruct Ns as [_ Ns].
      inversion Ns as [|? ? X _]. rewrite M in X. discriminate X.
Qed.

Lemma modem_io_with_rail_on_witness :
  rail_after false
    (firstn 6 (trace (operating_mode (env_command "USPNG") 2
                        (nm3_callback (mkClock 0 0 100) (set_extint true module_init)))))
  = true.
Proof.
  apply (modem_io_with_rail_on (env_command "USPNG") 2
           (nm3_callback (mkClock 0 0 100) (set_extint true module_init)) _
           (skipn 7 (trace (operating_mode (env_command "USPNG") 2
                              (nm3_callback (mkClock 0 0 100)
                                 (set_extint true module_init)))))
           PollReceiver).
  - vm_compute. reflexivity.
  - reflexivity.
Defined.

(** An iteration that completes, normally or through the handler of the
    loop, leaves the logic rail on: a power-down is always undone by the
    wake-up before the iteration ends, also when the line driver fails. *)
Theorem iteration_leaves_rail_on (env : Env) (fuel : nat) (w : Machine) (on : bool) :
  res (loop_iteration env fuel w) = Ret tt ->
  rail_after on (trace (loop_iteration env fuel w)) = true.
Proof.
  assert (O : (exists e, res (operating_mode env fuel w) = Raise e) \/
              res (operating_mode env fuel w) = Ret tt ->
              rail_after on (trace (operating_mode env fuel w)) = true).
  { destruct (operating_mode_parts env fuel w) as (tp & ts & -> & Np & _ & S).
    intros R. simpl. fold (rail_after true (tp ++ ts)).
    rewrite rail_after_app, (rail_after_quiet tp true Np).
    destruct S as [->|(w' & -> & R')]; [reflexivity|].
    apply sleep_stage_rail. rewrite <- R'.
    destruct R as [(e & R)|R]; rewrite R; discriminate. }
  unfold loop_iteration.
  destruct (res (operating_mode env fuel w)) as [[]|e| |] eqn:R.
  - rewrite try_except_quiet by (intros x; rewrite R; discriminate).
    intros _. apply O. now right.
  - destruct (is_Exception e) eqn:X.
    + rewrite (try_except_caught _ _ _ e R X).
      intros _. rewrite after_trace, rail_after_app, O by (left; eauto).
      reflexivity.
    + rewrite (try_except_passes _ _ _ e R X), R. discriminate.
  - rewrite try_except_quiet by (intros x; rewrite R; discriminate).
    rewrite R. discriminate.
  - rewrite try_except_quiet by (intros x; rewrite R; discriminate).
    rewrite R. discriminate.
Qed.

Lemma iteration_leaves_rail_on_witness :
  rail_after false
    (trace (loop_iteration (env_failing 13 (Exception "EIO")) 1 module_init)) = true.
Proof.
  apply (iteration_leaves_rail_on (env_failing 13 (Exception "EIO")) 1 module_init).
  reflexivity.
Defined.
